(** * PyScaffold: project structure model and its reification

    A shallow embedding of [src/pyscaffold/structure.py] (the structure tree,
    [define_structure], [structure_leaf], [reify_content], [create_structure])
    and of [src/pyscaffold/extensions/external_generators.py]
    ([ExternalGenerators.activate]), followed by the properties the
    specification states about them.

    Python objects are dynamically typed; the embedding keeps the part of the
    object universe that the functions inspect:
    - option values ([OptVal]): [None], booleans and strings;
    - leaf values ([PyVal]): literals, templates, callables, file operations
      and tuples;
    - structure nodes ([Node]): a [dict] (directory) or any other value (file).

    Exceptions are explicit ([Exc]).  The options dict is one mutable
    object that [create_structure] shares with every callable, file
    operation and nested call; it is a state threaded through the calls,
    as is the file system, together with the list of calls made to the
    collaborators that live outside this module. *)

From Stdlib Require Import String Ascii List Bool Arith Lia.
From stdpp Require Import base decidable option list strings gmap.

Import ListNotations.
Set Warnings "-register-all".
Local Open Scope string_scope.
Local Open Scope list_scope.

(** ** Python values *)

(** Values stored in the options dict ([ScaffoldOpts]) and used as dict keys. *)
Inductive OptVal : Type :=
| ONone
| OBool (b : bool)
| OStr (s : string).

#[global] Instance OptVal_eq_dec : EqDecision OptVal.
Proof. solve_decision. Defined.

(** [ScaffoldOpts]: a dict with string keys. *)
Abbreviation Opts := (gmap string OptVal).

(** [bool(v)] *)
Definition truthy (v : OptVal) : bool :=
  match v with
  | ONone => false
  | OBool b => b
  | OStr s => negb (String.eqb s "")
  end.

(** [a or b] *)
Definition py_or (a b : OptVal) : OptVal := if truthy a then a else b.

(** [str(v)] *)
Definition py_str (v : OptVal) : string :=
  match v with
  | ONone => "None"
  | OBool true => "True"
  | OBool false => "False"
  | OStr s => s
  end.

(** [opts.get(key)] and [opts.get(key, default)] *)
Definition get (opts : Opts) (key : string) : OptVal := default ONone (opts !! key).
Definition get_default (opts : Opts) (key : string) (d : OptVal) : OptVal :=
  default d (opts !! key).

(** Exceptions. [OtherError] stands for whatever a collaborator raises
    ([OSError] from the file system and the like). *)
Inductive PyExc : Type :=
| TypeError
| ValueError
| KeyError (key : string)
| AttributeError
| RuntimeError (msg : string)
| OtherError (msg : string).

Inductive Exc (A : Type) : Type :=
| Ok (a : A)
| Raise (e : PyExc).
Arguments Ok {A} a.
Arguments Raise {A} e.

(** [opts[key]] *)
Definition getitem (opts : Opts) (key : string) : Exc OptVal :=
  match opts !! key with
  | Some v => Ok v
  | None => Raise (KeyError key)
  end.

(** File operations are values of [pyscaffold.operations]; the structure
    module only passes them around and calls them.  [create],
    [NO_OVERWRITE = no_overwrite()] and [SKIP_ON_UPDATE = skip_on_update()]
    are the ones it names, [user_op n] is any other operation a caller
    supplies. *)
Inductive FileOp : Type :=
| create
| NO_OVERWRITE
| SKIP_ON_UPDATE
| user_op (n : nat).

#[global] Instance FileOp_eq_dec : EqDecision FileOp.
Proof. solve_decision. Defined.

(** [pathlib.Path] and the file system are outside this module: a type of
    paths with its constructor and its [/] operator, and a type of file
    system states. *)
Class Platform : Type := {
  Path : Type;
  World : Type;
  (** [Path(s)] for a string [s] *)
  path_of : string -> Path;
  (** [path / name] for a string [name] *)
  joinpath : Path -> string -> Path;
}.

(** What a call leaves behind: its result, the options dict and the file
    system as they are after it. *)
Abbreviation Outcome A := (Exc A * Opts * World)%type.

(** Values found at the leaves of a structure.
    - [VTemplate text call]: an instance of [string.Template] (or of a
      subclass; [call] is its [__call__] method when it defines one);
    - [VFunc f]: a callable of one argument, [f(opts)]; it is handed the
      options dict itself, which it can change, and it can touch the file
      system;
    - [VFileOp op]: a callable of three arguments, [op(path, contents, opts)];
    - [VTuple items]: a tuple.
    A [dict] is not a leaf value: it is a directory node ([NDict]). *)
Inductive PyVal `{Platform} : Type :=
| VNone
| VBool (b : bool)
| VInt (n : Z)
| VStr (s : string)
| VBytes (b : list ascii)
| VTemplate (text : string) (call : option (Opts -> World -> Outcome PyVal))
| VFunc (f : Opts -> World -> Outcome PyVal)
| VFileOp (op : FileOp)
| VTuple (items : list PyVal).

(** Dict keys: hashable scalars; file and directory names are the [OStr] ones. *)
Abbreviation Key := OptVal.

(** [Structure = Dict[str, Union[StructureLeaf, dict]]]: a dict is an
    association list in insertion order, which is the order [items()]
    iterates in. *)
Inductive Node `{Platform} : Type :=
| NDict (items : list (Key * Node))
| NLeaf (v : PyVal).

Abbreviation Structure := (list (Key * Node)).

(** ** Dicts as association lists *)

Section Dict.
Context {V : Type}.

Definition keys (d : list (Key * V)) : list Key := map fst d.

(** [d.get(k)] as an option *)
Fixpoint dict_get (k : Key) (d : list (Key * V)) : option V :=
  match d with
  | [] => None
  | (k', v) :: rest => if decide (k = k') then Some v else dict_get k rest
  end.

(** [d[k] = v]: replaces the value of an existing key in place, appends a
    new key at the end. *)
Fixpoint dict_set (k : Key) (v : V) (d : list (Key * V)) : list (Key * V) :=
  match d with
  | [] => [(k, v)]
  | (k', v') :: rest =>
      if decide (k = k') then (k, v) :: rest else (k', v') :: dict_set k v rest
  end.
End Dict.

(** A dict has each key once, at every level of a structure. *)
Fixpoint uniq_keys `{Platform} (n : Node) : bool :=
  match n with
  | NLeaf _ => true
  | NDict items =>
      bool_decide (NoDup (keys items))
      && forallb (fun kn => uniq_keys (snd kn)) items
  end.

(** ** [string.Template.safe_substitute]

    The standard library's template class, with the default delimiter [$]
    and the default identifier pattern [[_a-z][_a-z0-9]*] (ASCII, case
    ignored).  Each [$] of the text starts one match of the pattern
    [\$(?:(?P<escaped>\$)|(?P<named>id)|{(?P<braced>id)}|(?P<invalid>))],
    the alternatives tried in this order. *)

Module Template.
Local Open Scope string_scope.

Definition is_id_start (c : ascii) : bool :=
  let n := nat_of_ascii c in
  (Nat.eqb n 95 || (Nat.leb 65 n && Nat.leb n 90) || (Nat.leb 97 n && Nat.leb n 122))%bool.

Definition is_id_char (c : ascii) : bool :=
  let n := nat_of_ascii c in
  (is_id_start c || (Nat.leb 48 n && Nat.leb n 57))%bool.

Fixpoint take (n : nat) (s : string) : string :=
  match n, s with
  | S k, String c r => String c (take k r)
  | _, _ => EmptyString
  end.

Fixpoint drop (n : nat) (s : string) : string :=
  match n, s with
  | S k, String _ r => drop k r
  | _, _ => s
  end.

(** Number of leading identifier characters. *)
Fixpoint id_chars (s : string) : nat :=
  match s with
  | String c r => if is_id_char c then S (id_chars r) else 0
  | EmptyString => 0
  end.

(** Length of the longest identifier [s] starts with, [0] when none. *)
Definition id_len (s : string) : nat :=
  match s with
  | String c r => if is_id_start c then S (id_chars r) else 0
  | EmptyString => 0
  end.

(** The groups of one match of the pattern. *)
Inductive Match : Type :=
| Escaped
| Named (id : string)
| Braced (id : string)
| Invalid.

(** [mo.group()]: the text the match covers. *)
Definition group (m : Match) : string :=
  match m with
  | Escaped => "$$"
  | Named id => "$" ++ id
  | Braced id => "${" ++ id ++ "}"
  | Invalid => "$"
  end.

(** The match that starts at a [$] followed by [r], and the number of
    characters of [r] it covers. *)
Definition match_at (r : string) : Match * nat :=
  match r with
  | String "$"%char _ => (Escaped, 1)
  | _ =>
      let n := id_len r in
      if Nat.ltb 0 n then (Named (take n r), n)
      else
        match r with
        | String "{"%char r2 =>
            let k := id_len r2 in
            match drop k r2 with
            | String "}"%char _ =>
                if Nat.ltb 0 k then (Braced (take k r2), S (S k)) else (Invalid, 0)
            | _ => (Invalid, 0)
            end
        | _ => (Invalid, 0)
        end
  end.

(** The text cut into plain characters and matches, left to right;
    [skip] counts the characters the previous match still covers. *)
Inductive Piece : Type :=
| Lit (c : ascii)
| Mat (m : Match).

Fixpoint scan (skip : nat) (s : string) : list Piece :=
  match s with
  | EmptyString => []
  | String c r =>
      match skip with
      | S k => scan k r
      | 0 =>
          if Ascii.eqb c "$"
          then let '(m, n) := match_at r in Mat m :: scan n r
          else Lit c :: scan 0 r
      end
  end.

(** The source text of a piece. *)
Definition source (p : Piece) : string :=
  match p with
  | Lit c => String c EmptyString
  | Mat m => group m
  end.

(** [convert] of [safe_substitute]: a placeholder whose key is missing
    ([KeyError]) and an invalid [$] give back the matched text. *)
Definition convert (mapping : Opts) (m : Match) : string :=
  match m with
  | Named id | Braced id =>
      match mapping !! id with
      | Some v => py_str v
      | None => group m
      end
  | Escaped => "$"
  | Invalid => group m
  end.

Definition render (mapping : Opts) (p : Piece) : string :=
  match p with
  | Lit c => String c EmptyString
  | Mat m => convert mapping m
  end.

Fixpoint join (l : list string) : string :=
  match l with
  | [] => EmptyString
  | s :: rest => s ++ join rest
  end.

Definition pieces (template : string) : list Piece := scan 0 template.

(** [Template(template).safe_substitute(mapping)] *)
Definition safe_substitute (template : string) (mapping : Opts) : string :=
  join (map (render mapping) (pieces template)).

(** The placeholder names of a template, and whether it has a [$$]. *)
Definition placeholder (p : Piece) : option string :=
  match p with
  | Mat (Named id) | Mat (Braced id) => Some id
  | _ => None
  end.

Definition placeholders (template : string) : list string :=
  omap placeholder (pieces template).

Definition is_escape (p : Piece) : bool :=
  match p with
  | Mat Escaped => true
  | _ => false
  end.

Definition has_escape (template : string) : bool :=
  existsb is_escape (pieces template).

End Template.

(** ** The content resolver *)

Section Resolver.
Context `{Platform}.

(** [isinstance(v, tuple)], [callable(v)], [isinstance(v, Template)] *)
Definition is_tuple (v : PyVal) : bool :=
  match v with
  | VTuple _ => true
  | _ => false
  end.

Definition callable (v : PyVal) : bool :=
  match v with
  | VFunc _ | VFileOp _ | VTemplate _ (Some _) => true
  | _ => false
  end.

Definition is_template (v : PyVal) : bool :=
  match v with
  | VTemplate _ _ => true
  | _ => false
  end.

(** [v(opts)]: a call with one argument, on the options dict and the file
    system as they are.  A file operation takes three arguments, so
    calling it with one is a [TypeError]; so is calling a value that is
    not callable. *)
Definition call1 (v : PyVal) (opts : Opts) (w : World) : Outcome PyVal :=
  match v with
  | VFunc f => f opts w
  | VTemplate _ (Some f) => f opts w
  | _ => (Raise TypeError, opts, w)
  end.

(** [structure_leaf(contents)] *)
Definition structure_leaf (contents : PyVal) : PyVal :=
  if is_tuple contents then contents
  else VTuple [contents; VFileOp create].

(** [reify_content(content, opts)] *)
Definition reify_content (content : PyVal) (opts : Opts) (w : World)
  : Outcome PyVal :=
  if callable content then call1 content opts w
  else
    match content with
    | VTemplate text _ => (Ok (VStr (Template.safe_substitute text opts)), opts, w)
    | _ => (Ok content, opts, w)
    end.

(** [template, file_op = leaf]: unpacking into two names raises
    [ValueError] when the tuple has another length.  [structure_leaf]
    always returns a tuple, the last case is there for totality. *)
Definition unpack2 (leaf : PyVal) : Exc (PyVal * PyVal) :=
  match leaf with
  | VTuple [a; b] => Ok (a, b)
  | VTuple _ => Raise ValueError
  | _ => Raise TypeError
  end.
End Resolver.

(** ** The collaborators

    [file_system.create_directory] and the bodies of the file operations
    of [pyscaffold.operations] are outside this module.  They are
    parameters of the development: the effect and result of each call.  A
    file operation is handed the options dict and can change it; it
    returns a value that [create_structure] only tests for truth, hence
    [bool]. *)

(** What [create_directory] is called with: the root comes as found in the
    options, nested directories as [Path] objects. *)
Inductive PathArg `{Platform} : Type :=
| PRaw (v : OptVal)
| PPath (p : Path).

Class Collaborators `{Platform} : Type := {
  (** [create_directory(path, update, pretend)] *)
  create_directory : PathArg -> OptVal -> OptVal -> World -> Exc unit * World;
  (** [file_op(path, contents, opts)] for each file operation *)
  run_op : FileOp -> Path -> PyVal -> Opts -> World -> Outcome bool;
}.

Section Reifier.
Context `{Collaborators}.

(** One call to a collaborator, with its arguments and, for a file
    operation, the options dict as it was when the call was made and the
    outcome of the call. *)
Inductive Event : Type :=
| EvMkdir (path : PathArg) (update pretend : OptVal)
| EvFileOp (op : FileOp) (path : Path) (content : PyVal) (opts : Opts)
           (outcome : Exc bool).

(** Computations: they read and change the options dict and the file
    system, tell the calls they made, and return or raise. *)
Definition M (A : Type) : Type :=
  Opts -> World -> Exc A * Opts * World * list Event.

Definition result_of {A} (r : Exc A * Opts * World * list Event) : Exc A :=
  fst (fst (fst r)).
Definition opts_of {A} (r : Exc A * Opts * World * list Event) : Opts :=
  snd (fst (fst r)).
Definition world_of {A} (r : Exc A * Opts * World * list Event) : World :=
  snd (fst r).
Definition calls_of {A} (r : Exc A * Opts * World * list Event) : list Event :=
  snd r.

Definition ret {A} (a : A) : M A := fun o w => (Ok a, o, w, []).

Definition raise {A} (e : PyExc) : M A := fun o w => (Raise e, o, w, []).

Definition bind {A B} (m : M A) (k : A -> M B) : M B :=
  fun o w =>
    match m o w with
    | (Ok a, o1, w1, t1) =>
        let '(r, o2, w2, t2) := k a o1 w1 in (r, o2, w2, t1 ++ t2)
    | (Raise e, o1, w1, t1) => (Raise e, o1, w1, t1)
    end.

Definition lift {A} (r : Exc A) : M A := fun o w => (r, o, w, []).

(** The options dict as it is now. *)
Definition the_opts : M Opts := fun o w => (Ok o, o, w, []).

Notation "x <- c1 ;; c2" := (bind c1 (fun x => c2))
  (at level 100, c1 at next level, right associativity).

Definition call_create_directory (path : PathArg) (update pretend : OptVal)
  : M unit :=
  fun o w =>
    let '(r, w') := create_directory path update pretend w in
    (r, o, w', [EvMkdir path update pretend]).

(** [reify_content(template, opts)], on the dict *)
Definition call_reify (template : PyVal) : M PyVal :=
  fun o w =>
    let '(r, o', w') := reify_content template o w in (r, o', w', []).

(** [file_op(path, content, opts)]: a call with three arguments, the last
    one the dict, and the truth value of what it returns. *)
Definition call3 (file_op : PyVal) (path : Path) (content : PyVal) : M bool :=
  match file_op with
  | VFileOp op =>
      fun o w =>
        let '(r, o', w') := run_op op path content o w in
        (r, o', w', [EvFileOp op path content o r])
  | _ => raise TypeError
  end.

(** [Path(prefix)] *)
Definition Path_ (prefix : PathArg) : Exc Path :=
  match prefix with
  | PPath p => Ok p
  | PRaw (OStr s) => Ok (path_of s)
  | PRaw _ => Raise TypeError
  end.

(** [prefix / name] *)
Definition truediv (prefix : Path) (name : Key) : Exc Path :=
  match name with
  | OStr s => Ok (joinpath prefix s)
  | _ => Raise TypeError
  end.

Section Loop.
(** The function called on nested dicts: [create_structure] itself, on
    the same options dict. *)
Variable rec : Node -> option PathArg -> M (Structure * Opts).
(** [update] and [pretend] as the enclosing call computed them. *)
Variables (update pretend : OptVal) (prefix : Path).

(** The body of the [for] loop. *)
Definition visit (name : Key) (node : Node) (changed : Structure)
  : M Structure :=
  path <- lift (truediv prefix name) ;;
  match node with
  | NDict _ =>
      _ <- call_create_directory (PPath path) update pretend ;;
      result <- rec node (Some (PPath path)) ;;
      ret (dict_set name (NDict (fst result)) changed)
  | NLeaf leaf =>
      pair <- lift (unpack2 (structure_leaf leaf)) ;;
      let '(template, file_op) := pair in
      content <- call_reify template ;;
      b <- call3 file_op path content ;;
      if b : bool then ret (dict_set name (NLeaf content) changed)
      else ret changed
  end.

(** [for name, node in struct.items(): ...] *)
Fixpoint for_items (items : Structure) (changed : Structure)
  : M Structure :=
  match items with
  | [] => ret changed
  | (name, node) :: rest =>
      changed' <- visit name node changed ;;
      for_items rest changed'
  end.
End Loop.

(** [create_structure(struct, opts, prefix)], on the node [struct] and
    the options dict of the state: [update] and [pretend] are read from
    the dict as it is when the call starts, the dict is returned as it is
    when the call ends.  [struct.items()] of a value that is no dict is
    an [AttributeError]. *)
Fixpoint create_structure_node (struct : Node) (prefix : option PathArg)
    {struct struct} : M (Structure * Opts) :=
  opts <- the_opts ;;
  let update := py_or (get opts "update") (get opts "force") in
  let pretend := get opts "pretend" in
  prefix <-
    match prefix with
    | None =>
        let prefix := PRaw (get_default opts "project_path" (OStr ".")) in
        _ <- call_create_directory prefix update pretend ;;
        ret prefix
    | Some prefix => ret prefix
    end ;;
  prefix <- lift (Path_ prefix) ;;
  match struct with
  | NDict items =>
      changed <- for_items create_structure_node update pretend prefix
                   items [] ;;
      opts <- the_opts ;;
      ret (changed, opts)
  | NLeaf _ => raise AttributeError
  end.

(** [create_structure(struct, opts, prefix=None)], started on the options
    [opts] and the file system [w]. *)
Definition create_structure (struct : Structure) (opts : Opts)
    (prefix : option PathArg) (w : World)
  : Exc (Structure * Opts) * Opts * World * list Event :=
  create_structure_node (NDict struct) prefix opts w.

End Reifier.

(** ** Shapes of trees and directories visited *)

Section Shapes.
Context `{Platform}.

Definition is_leaf (n : Node) : bool :=
  match n with
  | NLeaf _ => true
  | NDict _ => false
  end.

Definition has_key {V} (k : Key) (d : list (Key * V)) : bool :=
  match dict_get k d with
  | Some _ => true
  | None => false
  end.

(** [mirrors input changed]: [changed] has the nesting of a part of
    [input].  At a dict, every key of [changed] is a key of [input]; a
    directory of [input] is present in [changed] and is a dict that mirrors
    it; a file of [input] is absent from [changed] or is a file there. *)
Fixpoint mirrors (input changed : Node) : bool :=
  match input, changed with
  | NLeaf _, NLeaf _ => true
  | NDict items, NDict ch =>
      forallb (fun k => has_key k items) (keys ch)
      && forallb
           (fun kn =>
              match dict_get (fst kn) ch with
              | Some v => mirrors (snd kn) v
              | None => is_leaf (snd kn)
              end)
           items
  | _, _ => false
  end.

(** [update or force], as a call computes it from the options dict. *)
Definition flag_of (opts : Opts) : OptVal :=
  py_or (get opts "update") (get opts "force").

(** The parts of what a callable or a file operation leaves behind. *)
Definition out_result {A} (r : Outcome A) : Exc A := fst (fst r).
Definition out_opts {A} (r : Outcome A) : Opts := snd (fst r).
Definition out_world {A} (r : Outcome A) : World := snd r.
End Shapes.

Section Directories.
Context `{Collaborators}.

(** The directory nodes below [prefix], in the order of the walk. *)
Fixpoint dir_paths (n : Node) (prefix : Path) : list Path :=
  match n with
  | NLeaf _ => []
  | NDict items =>
      flat_map
        (fun kn =>
           match fst kn, snd kn with
           | OStr name, NDict _ =>
               joinpath prefix name :: dir_paths (snd kn) (joinpath prefix name)
           | _, _ => []
           end)
        items
  end.

(** The prefix a call works below: the one it is given, or the project
    path of the options. *)
Definition root_arg (opts : Opts) (prefix : option PathArg) : PathArg :=
  match prefix with
  | Some prefix => prefix
  | None => PRaw (get_default opts "project_path" (OStr "."))
  end.

(** The paths [create_directory] was called with, and the [update] flags. *)
Definition mkdir_paths (calls : list Event) : list PathArg :=
  omap (fun ev => match ev with
                  | EvMkdir path _ _ => Some path
                  | EvFileOp _ _ _ _ _ => None
                  end) calls.

Definition mkdir_flags (calls : list Event) : list OptVal :=
  omap (fun ev => match ev with
                  | EvMkdir _ update _ => Some update
                  | EvFileOp _ _ _ _ _ => None
                  end) calls.

(** A successful call on [n] returns a tree that mirrors [n]. *)
Definition mirrored (n : Node) : Prop :=
  forall prefix o w changed ro o' w' t,
    create_structure_node n prefix o w = (Ok (changed, ro), o', w', t) ->
    uniq_keys n = true ->
    mirrors n (NDict changed) = true.

(** A successful call on [n] below a prefix creates the directories of
    [n], in the order of the walk. *)
Definition creates_dirs (n : Node) : Prop :=
  forall prefix o w changed ro o' w' t,
    create_structure_node n (Some prefix) o w = (Ok (changed, ro), o', w', t) ->
    exists root,
      Path_ prefix = Ok root
      /\ mkdir_paths t = map PPath (dir_paths n root).

(** The files of a tree, at every depth, as the loop body sees them: the
    two halves of the leaves that normalize to pairs. *)
Definition leaf_parts (leaf : PyVal) : option (PyVal * PyVal) :=
  match unpack2 (structure_leaf leaf) with
  | Ok parts => Some parts
  | Raise _ => None
  end.

Fixpoint leaves_of (n : Node) : list (PyVal * PyVal) :=
  match n with
  | NLeaf leaf =>
      match leaf_parts leaf with
      | Some parts => [parts]
      | None => []
      end
  | NDict items => flat_map (fun kn => leaves_of (snd kn)) items
  end.

(** A property [K] of the options dict and the file system that holds
    again after reifying a content, after a file operation, and after
    [create_directory] called with flags read from a dict in a [K]
    state. *)
Definition reify_keeps (K : Opts -> World -> Prop) (template : PyVal) : Prop :=
  forall o w,
    K o w ->
    K (out_opts (reify_content template o w))
      (out_world (reify_content template o w)).

Definition op_keeps (K : Opts -> World -> Prop) (file_op : PyVal) : Prop :=
  match file_op with
  | VFileOp op =>
      forall path content o w,
        K o w ->
        K (out_opts (run_op op path content o w))
          (out_world (run_op op path content o w))
  | _ => True
  end.

Definition leaf_keeps (K : Opts -> World -> Prop) (parts : PyVal * PyVal)
  : Prop :=
  reify_keeps K (fst parts) /\ op_keeps K (snd parts).

Definition mkdir_keeps (K : Opts -> World -> Prop) : Prop :=
  forall path o0 w0 o w,
    K o0 w0 -> K o w ->
    K o (snd (create_directory path (flag_of o0) (get o0 "pretend") w)).

(** A call made in a [K] state: a file operation is handed a dict in
    such a state, [create_directory] flags read from one. *)
Definition from_state (K : Opts -> World -> Prop) (ev : Event) : Prop :=
  match ev with
  | EvMkdir _ update pretend =>
      exists o w, K o w /\ update = flag_of o /\ pretend = get o "pretend"
  | EvFileOp _ _ _ o _ => exists w, K o w
  end.

(** A computation started in a [K] state ends in one, returning or
    raising, and makes its calls in such states. *)
Definition stays {A} (K : Opts -> World -> Prop) (m : M A) : Prop :=
  forall o w,
    K o w ->
    K (opts_of (m o w)) (world_of (m o w))
    /\ Forall (from_state K) (calls_of (m o w)).

Definition keeps_state (K : Opts -> World -> Prop) (n : Node) : Prop :=
  forall prefix,
    Forall (leaf_keeps K) (leaves_of n) ->
    stays K (create_structure_node n prefix).
End Directories.

(** Induction on nodes, with the hypothesis for every node of a dict. *)
Section NodeInduction.
Context `{Platform}.
Variable P : Node -> Prop.
Hypothesis P_leaf : forall v, P (NLeaf v).
Hypothesis P_dict :
  forall items, Forall (fun kn => P (snd kn)) items -> P (NDict items).

Fixpoint Node_induction (n : Node) : P n :=
  match n with
  | NLeaf v => P_leaf v
  | NDict items =>
      P_dict items
        ((fix all (l : list (Key * Node)) : Forall (fun kn => P (snd kn)) l :=
            match l with
            | [] => List.Forall_nil _
            | kn :: rest =>
                List.Forall_cons _ kn rest (Node_induction (snd kn)) (all rest)
            end) items)
  end.
End NodeInduction.

(** ** The default structure *)

(** The [templates] module is outside this file's sources.  Its
    [get_template(name)] returns a [string.Template] read from a template
    file, here its text; [templates.init], [templates.license] and
    [templates.setup_cfg] are functions called with the options dict,
    which they can change. *)
Class Templates `{Platform} : Type := {
  get_template : string -> string;
  templates_init : Opts -> World -> Outcome PyVal;
  templates_license : Opts -> World -> Outcome PyVal;
  templates_setup_cfg : Opts -> World -> Outcome PyVal;
}.

Section DefaultStructure.
Context `{Templates}.

Definition template (name : string) : PyVal := VTemplate (get_template name) None.

(** A leaf written as a tuple [(content, file_op)]. *)
Definition with_op (content : PyVal) (op : FileOp) : Node :=
  NLeaf (VTuple [content; VFileOp op]).

(** [define_structure(_, opts)]; [opts["package"]] raises [KeyError] when
    the key is missing. *)
Definition define_structure (_ : Structure) (opts : Opts)
  : Exc (Structure * Opts) :=
  match getitem opts "package" with
  | Raise e => Raise e
  | Ok package =>
      let struct := [
        (OStr ".gitignore", with_op (template "gitignore") NO_OVERWRITE);
        (OStr "src", NDict [
          (package, NDict [
            (OStr "__init__.py", NLeaf (VFunc templates_init));
            (OStr "skeleton.py", with_op (template "skeleton") SKIP_ON_UPDATE)
          ])
        ]);
        (OStr "tests", NDict [
          (OStr "conftest.py", with_op (template "conftest_py") NO_OVERWRITE);
          (OStr "test_skeleton.py",
             with_op (template "test_skeleton") SKIP_ON_UPDATE)
        ]);
        (OStr "docs", NDict [
          (OStr "conf.py", NLeaf (template "sphinx_conf"));
          (OStr "authors.rst", NLeaf (template "sphinx_authors"));
          (OStr "index.rst", with_op (template "sphinx_index") NO_OVERWRITE);
          (OStr "license.rst", NLeaf (template "sphinx_license"));
          (OStr "changelog.rst", NLeaf (template "sphinx_changelog"));
          (OStr "Makefile", NLeaf (template "sphinx_makefile"));
          (OStr "_static", NDict [
            (OStr ".gitignore", NLeaf (template "gitignore_empty"))
          ])
        ]);
        (OStr "README.rst", with_op (template "readme") NO_OVERWRITE);
        (OStr "AUTHORS.rst", with_op (template "authors") NO_OVERWRITE);
        (OStr "LICENSE.txt", with_op (VFunc templates_license) NO_OVERWRITE);
        (OStr "CHANGELOG.rst", with_op (template "changelog") NO_OVERWRITE);
        (OStr "setup.py", NLeaf (template "setup_py"));
        (OStr "setup.cfg", with_op (VFunc templates_setup_cfg) NO_OVERWRITE);
        (OStr ".coveragerc", with_op (template "coveragerc") NO_OVERWRITE)
      ] in
      Ok (struct, opts)
  end.
End DefaultStructure.

Section Lookup.
Context `{Platform}.

(** The node at the end of a path of keys. *)
Fixpoint node_at (path : list Key) (n : Node) : option Node :=
  match path with
  | [] => Some n
  | k :: rest =>
      match n with
      | NDict items =>
          match dict_get k items with
          | Some sub => node_at rest sub
          | None => None
          end
      | NLeaf _ => None
      end
  end.

(** The write policy of the file at a path: the second half of its
    normalized leaf. *)
Definition policy_at (path : list Key) (struct : Structure) : option PyVal :=
  match node_at path (NDict struct) with
  | Some (NLeaf leaf) =>
      match unpack2 (structure_leaf leaf) with
      | Ok (_, file_op) => Some file_op
      | Raise _ => None
      end
  | _ => None
  end.

(** The paths of the files of a structure, in iteration order. *)
Fixpoint files_of (n : Node) : list (list Key) :=
  match n with
  | NLeaf _ => [[]]
  | NDict items =>
      (fix each (l : list (Key * Node)) : list (list Key) :=
         match l with
         | [] => []
         | (k, sub) :: rest => map (cons k) (files_of sub) ++ each rest
         end) items
  end.

(** The protection rule of the specification, file by file: [NO_OVERWRITE]
    for the files meant to be edited by hand once, [SKIP_ON_UPDATE] for the
    generated code stubs, the unconditional [create] for the rest. *)
Definition default_policies (package : Key) : list (list Key * option PyVal) :=
  [ ([OStr ".gitignore"], Some (VFileOp NO_OVERWRITE));
    ([OStr "src"; package; OStr "__init__.py"], Some (VFileOp create));
    ([OStr "src"; package; OStr "skeleton.py"], Some (VFileOp SKIP_ON_UPDATE));
    ([OStr "tests"; OStr "conftest.py"], Some (VFileOp NO_OVERWRITE));
    ([OStr "tests"; OStr "test_skeleton.py"], Some (VFileOp SKIP_ON_UPDATE));
    ([OStr "docs"; OStr "conf.py"], Some (VFileOp create));
    ([OStr "docs"; OStr "authors.rst"], Some (VFileOp create));
    ([OStr "docs"; OStr "index.rst"], Some (VFileOp NO_OVERWRITE));
    ([OStr "docs"; OStr "license.rst"], Some (VFileOp create));
    ([OStr "docs"; OStr "changelog.rst"], Some (VFileOp create));
    ([OStr "docs"; OStr "Makefile"], Some (VFileOp create));
    ([OStr "docs"; OStr "_static"; OStr ".gitignore"], Some (VFileOp create));
    ([OStr "README.rst"], Some (VFileOp NO_OVERWRITE));
    ([OStr "AUTHORS.rst"], Some (VFileOp NO_OVERWRITE));
    ([OStr "LICENSE.txt"], Some (VFileOp NO_OVERWRITE));
    ([OStr "CHANGELOG.rst"], Some (VFileOp NO_OVERWRITE));
    ([OStr "setup.py"], Some (VFileOp create));
    ([OStr "setup.cfg"], Some (VFileOp NO_OVERWRITE));
    ([OStr ".coveragerc"], Some (VFileOp NO_OVERWRITE)) ].
End Lookup.

(** ** What a walk does, read off the tree *)

Section WalkPlan.
Context `{Collaborators}.

(** [prefix / k1 / ... / kn] *)
Fixpoint descend (prefix : Path) (names : list Key) : Exc Path :=
  match names with
  | [] => Ok prefix
  | name :: rest =>
      match truediv prefix name with
      | Ok path => descend path rest
      | Raise e => Raise e
      end
  end.

(** A call without its data: which collaborator, on which path. *)
Inductive Step : Type :=
| StepMkdir (path : PathArg)
| StepFileOp (path : Path).

Definition step_of (ev : Event) : Step :=
  match ev with
  | EvMkdir path _ _ => StepMkdir path
  | EvFileOp _ path _ _ _ => StepFileOp path
  end.

Definition steps (calls : list Event) : list Step := map step_of calls.

(** The steps of the walk of [n] below [prefix]: for each entry in
    iteration order, its directory and then what is below it, or its
    file. *)
Fixpoint plan (n : Node) (prefix : Path) : list Step :=
  match n with
  | NLeaf _ => []
  | NDict items =>
      flat_map
        (fun kn =>
           match fst kn with
           | OStr name =>
               match snd kn with
               | NDict _ =>
                   StepMkdir (PPath (joinpath prefix name))
                   :: plan (snd kn) (joinpath prefix name)
               | NLeaf _ => [StepFileOp (joinpath prefix name)]
               end
           | _ => []
           end)
        items
  end.

(** The exception a recorded file operation raised. *)
Definition raised (ev : Event) : option PyExc :=
  match ev with
  | EvFileOp _ _ _ _ (Raise e) => Some e
  | _ => None
  end.

Definition returned (ev : Event) : Prop := raised ev = None.

(** The calls of a computation and its result: every file operation
    returned, or the last call is a file operation that raised and the
    computation raises the same exception. *)
Definition aborts_on_raise {A} (r : Exc A) (calls : list Event) : Prop :=
  Forall returned calls
  \/ exists before ev e,
       calls = before ++ [ev] /\ Forall returned before
       /\ raised ev = Some e /\ r = Raise e.

Definition strict {A} (m : M A) : Prop :=
  forall o w, aborts_on_raise (result_of (m o w)) (calls_of (m o w)).

Definition is_str (k : Key) : bool :=
  match k with
  | OStr _ => true
  | _ => false
  end.

(** A leaf that normalizes to a pair whose second half is a file
    operation. *)
Definition leaf_shaped (leaf : PyVal) : bool :=
  match unpack2 (structure_leaf leaf) with
  | Ok (_, VFileOp _) => true
  | _ => false
  end.

(** A tree whose names are strings and whose leaves are all
    [leaf_shaped]. *)
Fixpoint shaped (n : Node) : bool :=
  match n with
  | NLeaf leaf => leaf_shaped leaf
  | NDict items =>
      forallb (fun kn => is_str (fst kn) && shaped (snd kn)) items
  end.

(** In a [K] state, reifying a content, a file operation, and
    [create_directory] on a path that [Path] accepts, return and end in a
    [K] state. *)
Definition reify_returns (K : Opts -> World -> Prop) (template : PyVal) : Prop :=
  forall o w,
    K o w ->
    exists content o' w',
      reify_content template o w = (Ok content, o', w') /\ K o' w'.

Definition op_returns (K : Opts -> World -> Prop) (file_op : PyVal) : Prop :=
  match file_op with
  | VFileOp op =>
      forall path content o w,
        K o w ->
        exists b o' w',
          run_op op path content o w = (Ok b, o', w') /\ K o' w'
  | _ => True
  end.

Definition leaf_returns (K : Opts -> World -> Prop) (parts : PyVal * PyVal)
  : Prop :=
  reify_returns K (fst parts) /\ op_returns K (snd parts).

Definition mkdir_returns (K : Opts -> World -> Prop) : Prop :=
  forall path update pretend o w root,
    K o w ->
    Path_ path = Ok root ->
    exists w', create_directory path update pretend w = (Ok tt, w') /\ K o w'.

(** The tree with every leaf written as a pair. *)
Fixpoint normalize (n : Node) : Node :=
  match n with
  | NLeaf leaf => NLeaf (structure_leaf leaf)
  | NDict items => NDict (map (fun kn => (fst kn, normalize (snd kn))) items)
  end.

(** The part of a tree that is walked before the file at the end of a
    path of names is reached: at every level the entries before the name,
    and the directory of the name cut in the same way. *)
Fixpoint upto (names : list Key) (n : Node) {struct n} : Node :=
  match n with
  | NLeaf _ => n
  | NDict items =>
      match names with
      | [] => n
      | name :: rest =>
          NDict
            ((fix cut (l : list (Key * Node)) : list (Key * Node) :=
                match l with
                | [] => []
                | kn :: tl =>
                    if decide (fst kn = name) then
                      match snd kn with
                      | NLeaf _ => []
                      | NDict _ => [(fst kn, upto rest (snd kn))]
                      end
                    else kn :: cut tl
                end) items)
      end
  end.

(** A successful call on [n] treats the file at the end of every path of
    names as the loop body does: it reifies the content on the options
    dict and the file system as the walk of what comes before the file
    leaves them, calls the operation with the content and the dict as
    they are after that, and records the content at the same path of
    names. *)
Definition leaves_recorded (n : Node) : Prop :=
  forall prefix o w changed ro o' w' calls names leaf,
    create_structure_node n prefix o w = (Ok (changed, ro), o', w', calls) ->
    uniq_keys n = true ->
    node_at names n = Some (NLeaf leaf) ->
    exists root path template op content b o1 w1 o2 w2 o3 w3,
      Path_ (root_arg o prefix) = Ok root
      /\ descend root names = Ok path
      /\ structure_leaf leaf = VTuple [template; VFileOp op]
      /\ (exists changed0 calls0,
            create_structure_node (upto names n) prefix o w
            = (Ok (changed0, o1), o1, w1, calls0))
      /\ reify_content template o1 w1 = (Ok content, o2, w2)
      /\ run_op op path content o2 w2 = (Ok b, o3, w3)
      /\ EvFileOp op path content o2 (Ok b) ∈ calls
      /\ node_at names (NDict changed)
         = if b then Some (NLeaf content) else None.

Definition follows_plan (n : Node) : Prop :=
  forall prefix o w changed ro o' w' calls,
    create_structure_node n (Some prefix) o w
    = (Ok (changed, ro), o', w', calls) ->
    exists root, Path_ prefix = Ok root /\ steps calls = plan n root.

Definition returns_when_shaped (K : Opts -> World -> Prop) (n : Node) : Prop :=
  forall prefix o w root,
    Forall (leaf_returns K) (leaves_of n) ->
    shaped n = true ->
    is_leaf n = false ->
    Path_ (root_arg o prefix) = Ok root ->
    K o w ->
    exists changed o' w' calls,
      create_structure_node n prefix o w = (Ok (changed, o'), o', w', calls)
      /\ K o' w'.

Definition shaped_when_returns (n : Node) : Prop :=
  forall prefix o w changed ro o' w' calls,
    create_structure_node n prefix o w = (Ok (changed, ro), o', w', calls) ->
    shaped n = true.

Definition normalize_same (n : Node) : Prop :=
  forall prefix o w,
    create_structure_node (normalize n) prefix o w
    = create_structure_node n prefix o w.
End WalkPlan.

(** ** The external generators extension *)

Module ExternalGenerators.
(** [ExternalGenerators.activate(self, actions)] *)
Definition activate {Self Actions : Type} (self : Self) (actions : Actions)
  : Exc Actions :=
  Raise (RuntimeError "Implemented but never called!").
End ExternalGenerators.

(** ** A file system in memory

    An instance of the collaborators, to run the functions above on
    concrete structures. *)

Module InMemory.

(** What a file holds: text, bytes, or something else that was written. *)
Inductive Data : Type :=
| DText (s : string)
| DBytes (b : list ascii)
| DOther.

(** Paths are lists of components, a disk is the directories and the
    files it holds. *)
Record Disk : Type := {
  dirs : list (list string);
  files : list (list string * Data);
}.

(** [Path(".")] has no component, [Path(".") / "a"] is [Path("a")]. *)
#[export] Instance platform : Platform := {|
  Path := list string;
  World := Disk;
  path_of s := if String.eqb s "." then [] else [s];
  joinpath p name := p ++ [name];
|}.

Definition data_of (content : PyVal) : Data :=
  match content with
  | VStr s => DText s
  | VBytes b => DBytes b
  | _ => DOther
  end.

Fixpoint read (path : list string) (fs : list (list string * Data))
  : option Data :=
  match fs with
  | [] => None
  | (p, c) :: rest => if decide (path = p) then Some c else read path rest
  end.

Fixpoint store (path : list string) (content : Data)
    (fs : list (list string * Data)) : list (list string * Data) :=
  match fs with
  | [] => [(path, content)]
  | (p, c) :: rest =>
      if decide (path = p) then (p, content) :: rest
      else (p, c) :: store path content rest
  end.

Definition exists_ (path : list string) (w : Disk) : bool :=
  match read path (files w) with
  | Some _ => true
  | None => bool_decide (path ∈ dirs w)
  end.

Definition mkdir (path : list string) (w : Disk) : Disk :=
  if bool_decide (path ∈ dirs w) then w
  else {| dirs := dirs w ++ [path]; files := files w |}.

Definition write (path : list string) (content : PyVal) (w : Disk) : Disk :=
  {| dirs := dirs w; files := store path (data_of content) (files w) |}.

(** Modelled from the spec: [file_system.create_directory], which is not
    among the sources.  It is idempotent (no error when the directory
    exists) and does not touch the disk when [pretend] is set. *)
Definition create_directory_ (path : PathArg) (update pretend : OptVal)
    (w : Disk) : Exc unit * Disk :=
  match Path_ path with
  | Raise e => (Raise e, w)
  | Ok p => if truthy pretend then (Ok tt, w) else (Ok tt, mkdir p w)
  end.

(** Modelled from the spec: the operation [create] of
    [pyscaffold.operations], which is not among the sources.  It writes
    the content unconditionally, only simulates the write when [pretend]
    is set, and reports a change unless the content is [None].  It leaves
    the options dict as it is. *)
Definition create_ (path : list string) (content : PyVal) (opts : Opts)
    (w : Disk) : Outcome bool :=
  match content with
  | VNone => (Ok false, opts, w)
  | _ =>
      if truthy (get opts "pretend") then (Ok true, opts, w)
      else (Ok true, opts, write path content w)
  end.

(** Modelled from the spec: [no_overwrite()] of [pyscaffold.operations].
    It reports no change and writes nothing when the target exists, and
    behaves like [create] otherwise. *)
Definition no_overwrite_ (path : list string) (content : PyVal)
    (opts : Opts) (w : Disk) : Outcome bool :=
  if exists_ path w then (Ok false, opts, w) else create_ path content opts w.

(** Modelled from the spec: [skip_on_update()] of
    [pyscaffold.operations].  It skips when the options mark the run as
    an update and the target exists, and behaves like [create]
    otherwise. *)
Definition skip_on_update_ (path : list string) (content : PyVal)
    (opts : Opts) (w : Disk) : Outcome bool :=
  if truthy (get opts "update") && exists_ path w then (Ok false, opts, w)
  else create_ path content opts w.

(** Operations of a caller's own: [lambda path, contents, opts: True],
    [lambda path, contents, opts: False], and one that sets
    [opts["update"] = True] and reports no change. *)
Definition run_op_ (op : FileOp) (path : list string) (content : PyVal)
    (opts : Opts) (w : Disk) : Outcome bool :=
  match op with
  | create => create_ path content opts w
  | NO_OVERWRITE => no_overwrite_ path content opts w
  | SKIP_ON_UPDATE => skip_on_update_ path content opts w
  | user_op 0 => (Ok true, opts, w)
  | user_op 1 => (Ok false, opts, w)
  | user_op _ => (Ok false, <["update" := OBool true]> opts, w)
  end.

#[export] Instance collaborators : Collaborators := {|
  create_directory := create_directory_;
  run_op := run_op_;
|}.

Definition empty_disk : Disk := {| dirs := []; files := [] |}.

(** The templates of the examples: each template file holds a line that
    names it and the package.  [templates.init] reads [opts["package"]]
    and [opts["name"]], a [KeyError] when one is missing, and records a
    distribution name in the options, as a function of the options
    may. *)
Definition init_ (opts : Opts) (w : Disk) : Outcome PyVal :=
  match getitem opts "package" with
  | Raise e => (Raise e, opts, w)
  | Ok package =>
      match getitem opts "name" with
      | Raise e => (Raise e, opts, w)
      | Ok name =>
          let distribution :=
            if decide (package = name) then OStr "__name__" else name in
          (Ok (VStr ""), <["distribution" := distribution]> opts, w)
      end
  end.

#[export] Instance templates : Templates := {|
  get_template name := "# " ++ name ++ " of ${package}";
  templates_init := init_;
  templates_license opts w := (Ok (VStr (py_str (get opts "license"))), opts, w);
  templates_setup_cfg opts w :=
    (Ok (VStr (py_str (get opts "distribution"))), opts, w);
|}%string.

(** The scenario of the specification: a file and a directory with a
    template that is kept when present. *)
Definition scenario : Structure := [
  (OStr "a.txt", NLeaf (VTuple [VStr "hello"; VFileOp create]));
  (OStr "sub", NDict [
    (OStr "b.txt", NLeaf (VTuple [VTemplate "${name}" None; VFileOp NO_OVERWRITE]))
  ])
].

Definition scenario_opts : Opts := {["name" := OStr "X"]}.

(** The first run, on an empty disk: what it returns, the disk it
    leaves, the calls it makes. *)
Definition scenario_changed : Structure := [
  (OStr "a.txt", NLeaf (VStr "hello"));
  (OStr "sub", NDict [(OStr "b.txt", NLeaf (VStr "X"))])
].

Definition scenario_disk : Disk := {|
  dirs := [[]; ["sub"]];
  files := [(["a.txt"], DText "hello"); (["sub"; "b.txt"], DText "X")];
|}.

Definition scenario_calls : list Event := [
  EvMkdir (PRaw (OStr ".")) ONone ONone;
  EvFileOp create ["a.txt"] (VStr "hello") scenario_opts (Ok true);
  EvMkdir (PPath ["sub"]) ONone ONone;
  EvFileOp NO_OVERWRITE ["sub"; "b.txt"] (VStr "X") scenario_opts (Ok true)
].

(** The second run, on a disk where [sub/b.txt] was edited. *)
Definition edited_disk : Disk := {|
  dirs := [[]; ["sub"]];
  files := [(["sub"; "b.txt"], DText "OLD")];
|}.

Definition rerun_changed : Structure := [
  (OStr "a.txt", NLeaf (VStr "hello"));
  (OStr "sub", NDict [])
].

Definition rerun_disk : Disk := {|
  dirs := [[]; ["sub"]];
  files := [(["sub"; "b.txt"], DText "OLD"); (["a.txt"], DText "hello")];
|}.

Definition rerun_calls : list Event := [
  EvMkdir (PRaw (OStr ".")) ONone ONone;
  EvFileOp create ["a.txt"] (VStr "hello") scenario_opts (Ok true);
  EvMkdir (PPath ["sub"]) ONone ONone;
  EvFileOp NO_OVERWRITE ["sub"; "b.txt"] (VStr "X") scenario_opts (Ok false)
].

(** A structure with a leaf of no recognized shape, and options for a
    dry run. *)
Definition odd_structure : Structure := [(OStr "x", NLeaf (VInt 42))].
Definition odd_pair_structure : Structure :=
  [(OStr "x", NLeaf (VTuple [VInt 42; VFileOp (user_op 0)]))].
Definition dry_run : Opts := {["pretend" := OBool true]}.

Definition demo_opts : Opts :=
  {["package" := OStr "demo"; "name" := OStr "demo"]}.
Definition package_only : Opts := {["package" := OStr "demo"]}.

(** Options that name the package and the project. *)
Definition named (o : Opts) : Prop :=
  is_Some (o !! "package") /\ is_Some (o !! "name").

(** Leaves that are tuples but no pair of a content and an operation, and
    a name that is no string. *)
Definition triple_structure : Structure :=
  [(OStr "x", NLeaf (VTuple [VStr "a"; VFileOp create; VNone]))].
Definition no_operation_structure : Structure :=
  [(OStr "x", NLeaf (VTuple [VStr "a"; VInt 42]))].
Definition no_name_structure : Structure := [(ONone, NLeaf (VStr "a"))].

(** A template object that is also callable. *)
Definition callable_template : PyVal :=
  VTemplate "${name}" (Some (fun opts w => (Ok (VStr "called"), opts, w))).

(** Contents that write to the options dict they are called with:
    [opts["name"] = "Y"] and [opts["force"] = True]. *)
Definition rename : PyVal :=
  VFunc (fun opts w => (Ok (VStr "renamed"), <["name" := OStr "Y"]> opts, w)).

Definition set_force : PyVal :=
  VFunc (fun opts w => (Ok (VStr "forced"), <["force" := OBool true]> opts, w)).

(** A file whose content renames before a file made from a template of
    the name. *)
Definition renaming_structure : Structure := [
  (OStr "a", NLeaf rename);
  (OStr "b", NLeaf (VTemplate "${name}" None))
].

(** A file whose content sets [force] before a directory with a
    directory in it. *)
Definition forcing_structure : Structure := [
  (OStr "a", NLeaf set_force);
  (OStr "d", NDict [(OStr "e", NDict [])])
].

End InMemory.

Import InMemory.

(** * Examples *)

Example safe_substitute_ex1 :
  Template.safe_substitute "name = ${name}, by $author; $$5 $ ${x" {["name" := OStr "X"]}
  = "name = X, by $author; $5 $ ${x".
Proof. vm_compute. reflexivity. Qed.

Example safe_substitute_ex2 :
  Template.safe_substitute "${a}$b_1-${9} ${c}}" {["a" := OBool true; "b_1" := ONone]}
  = "TrueNone-${9} ${c}}".
Proof. vm_compute. reflexivity. Qed.

Example scenario_fresh :
  create_structure scenario scenario_opts None empty_disk
  = (Ok (scenario_changed, scenario_opts), scenario_opts, scenario_disk,
     scenario_calls).
Proof. vm_compute. reflexivity. Qed.

Example scenario_rerun :
  create_structure scenario scenario_opts None edited_disk
  = (Ok (rerun_changed, scenario_opts), scenario_opts, rerun_disk, rerun_calls).
Proof. vm_compute. reflexivity. Qed.

Example scenario_mirrors :
  mirrors (NDict scenario) (NDict rerun_changed) = true
  /\ mirrors (NDict scenario) (NDict scenario_changed) = true
  /\ mirrors (NDict scenario)
       (NDict [(OStr "a.txt", NLeaf (VStr "hello"))]) = false
  /\ mirrors (NDict scenario)
       (NDict [(OStr "sub", NLeaf (VStr "X"))]) = false
  /\ mirrors (NDict scenario)
       (NDict [(OStr "sub", NDict [(OStr "c.txt", NLeaf (VStr "X"))])]) = false.
Proof. repeat split; vm_compute; reflexivity. Qed.

Example reify_literal :
  reify_content (VStr "${name}") scenario_opts empty_disk
  = (Ok (VStr "${name}"), scenario_opts, empty_disk)
  /\ reify_content VNone scenario_opts empty_disk
     = (Ok VNone, scenario_opts, empty_disk)
  /\ reify_content (VBytes ["a"%char]) scenario_opts empty_disk
     = (Ok (VBytes ["a"%char]), scenario_opts, empty_disk).
Proof. repeat split; reflexivity. Qed.

Example reify_template :
  reify_content (VTemplate "${name} and ${other}" None) scenario_opts empty_disk
  = (Ok (VStr "X and ${other}"), scenario_opts, empty_disk).
Proof. vm_compute. reflexivity. Qed.

Example reify_callable_template :
  reify_content callable_template scenario_opts empty_disk
  = (Ok (VStr "called"), scenario_opts, empty_disk).
Proof. reflexivity. Qed.

Example reify_file_op :
  reify_content (VFileOp create) scenario_opts empty_disk
  = (Raise TypeError, scenario_opts, empty_disk).
Proof. reflexivity. Qed.

(** A content that writes to the options dict: the template after it is
    made from the new name, and the dict comes back changed. *)
Example renaming_run :
  result_of (create_structure renaming_structure scenario_opts None empty_disk)
  = Ok ([(OStr "a", NLeaf (VStr "renamed")); (OStr "b", NLeaf (VStr "Y"))],
        <["name" := OStr "Y"]> scenario_opts)
  /\ opts_of (create_structure renaming_structure scenario_opts None empty_disk)
     = <["name" := OStr "Y"]> scenario_opts.
Proof. split; vm_compute; reflexivity. Qed.

(** A content that sets [force]: the directories of the call that is
    running keep its flag, the nested call reads the dict again. *)
Example forcing_run :
  mkdir_flags (calls_of (create_structure forcing_structure ∅ None empty_disk))
  = [ONone; ONone; OBool true]
  /\ mkdir_paths (calls_of (create_structure forcing_structure ∅ None empty_disk))
     = [PRaw (OStr "."); PPath ["d"]; PPath ["d"; "e"]].
Proof. split; vm_compute; reflexivity. Qed.

Example triple_leaf :
  result_of (create_structure triple_structure dry_run None empty_disk)
  = Raise ValueError.
Proof. vm_compute. reflexivity. Qed.

Example leaf_without_operation :
  result_of (create_structure no_operation_structure dry_run None empty_disk)
  = Raise TypeError.
Proof. vm_compute. reflexivity. Qed.

Example name_that_is_no_string :
  result_of (create_structure no_name_structure dry_run None empty_disk)
  = Raise TypeError.
Proof. vm_compute. reflexivity. Qed.

Example define_structure_without_package :
  define_structure [] scenario_opts = Raise (KeyError "package").
Proof. vm_compute. reflexivity. Qed.

Example default_structure_on_empty_disk :
  match define_structure [] demo_opts with
  | Ok (struct, opts) =>
      match result_of (create_structure struct opts None empty_disk) with
      | Ok (changed, opts') =>
          mirrors (NDict struct) (NDict changed)
          && bool_decide (files_of (NDict changed) = files_of (NDict struct))
          && bool_decide (opts' = <["distribution" := OStr "__name__"]> demo_opts)
      | Raise _ => false
      end
  | Raise _ => false
  end = true.
Proof. vm_compute. reflexivity. Qed.

Example default_structure_without_name :
  match define_structure [] package_only with
  | Ok (struct, opts) =>
      result_of (create_structure struct opts None empty_disk)
  | Raise e => Raise e
  end = Raise (KeyError "name").
Proof. vm_compute. reflexivity. Qed.
(** * Properties *)

(** ** Templates *)

Section TemplateFacts.
Import Template.
Local Open Scope string_scope.
Local Arguments String.append : simpl nomatch.

Lemma take_drop (n : nat) (s : string) : take n s ++ drop n s = s.
Proof.
  revert s; induction n as [|n IH]; intros [|c r]; simpl; try reflexivity.
  now rewrite IH.
Qed.

Lemma take_succ (n : nat) (s : string) (c : ascii) (r : string) :
  drop n s = String c r -> take (S n) s = take n s ++ String c EmptyString.
Proof.
  revert s; induction n as [|n IH]; intros [|d t] Hd; simpl in *; try discriminate.
  - now inversion Hd.
  - f_equal. now apply IH.
Qed.

(** A match covers the [$] and the characters it consumes. *)
Lemma match_at_group (r : string) (m : Match) (n : nat) :
  match_at r = (m, n) -> group m = String "$" (take n r).
Proof.
  unfold match_at. intros Hm.
  destruct r as [|c r].
  - simpl in Hm. inversion Hm; subst. reflexivity.
  - destruct (Ascii.eqb c "$") eqn:Hc.
    + apply Ascii.eqb_eq in Hc; subst c. inversion Hm; subst. reflexivity.
    + assert (Hgen :
        (let n0 := id_len (String c r) in
         if Nat.ltb 0 n0 then (Named (take n0 (String c r)), n0)
         else match c with
              | "{"%char =>
                  let k := id_len r in
                  match drop k r with
                  | String "}"%char _ =>
                      if Nat.ltb 0 k then (Braced (take k r), S (S k))
                      else (Invalid, 0)
                  | _ => (Invalid, 0)
                  end
              | _ => (Invalid, 0)
              end) = (m, n)).
      { rewrite <- Hm. clear Hm.
        destruct c as [[] [] [] [] [] [] [] []]; try reflexivity;
          discriminate Hc. }
      clear Hm. cbv zeta in Hgen.
      destruct (Nat.ltb 0 (id_len (String c r))).
      * inversion Hgen; subst. reflexivity.
      * destruct (Ascii.eqb c "{") eqn:Hb.
        -- apply Ascii.eqb_eq in Hb; subst c.
           destruct (drop (id_len r) r) as [|d t] eqn:Hd.
           ++ inversion Hgen; subst. reflexivity.
           ++ destruct (Ascii.eqb d "}") eqn:He.
              ** apply Ascii.eqb_eq in He; subst d.
                 destruct (Nat.ltb 0 (id_len r)).
                 --- inversion Hgen; subst.
                     change (take (S (S (id_len r))) (String "{" r))
                       with (String "{" (take (S (id_len r)) r)).
                     rewrite (take_succ _ _ _ _ Hd). reflexivity.
                 --- inversion Hgen; subst. reflexivity.
              ** assert (Hi : (Invalid, 0) = (m, n)).
                 { rewrite <- Hgen.
                   destruct d as [[] [] [] [] [] [] [] []]; try reflexivity;
                     discriminate He. }
                 inversion Hi; subst. reflexivity.
        -- assert (Hi : (Invalid, 0) = (m, n)).
           { rewrite <- Hgen.
             destruct c as [[] [] [] [] [] [] [] []]; try reflexivity;
               discriminate Hb. }
           inversion Hi; subst. reflexivity.
Qed.

(** The pieces of a text, put back together, are the text. *)
Lemma scan_source (s : string) (skip : nat) :
  join (map source (scan skip s)) = drop skip s.
Proof.
  revert skip; induction s as [|c r IH]; intros skip.
  - destruct skip; reflexivity.
  - destruct skip as [|k]; simpl.
    + destruct (Ascii.eqb c "$") eqn:Hc.
      * apply Ascii.eqb_eq in Hc; subst c.
        destruct (match_at r) as [m n] eqn:Hm. simpl.
        rewrite IH, (match_at_group _ _ _ Hm). simpl.
        now rewrite take_drop.
      * simpl. rewrite IH. destruct r; reflexivity.
    + apply IH.
Qed.

Lemma pieces_source (text : string) :
  join (map source (pieces text)) = text.
Proof. unfold pieces. now rewrite scan_source. Qed.

(** A piece renders as its source unless it is a [$$] or a placeholder
    whose key is present. *)
Lemma render_source (mapping : Opts) (p : Piece) :
  is_escape p = false ->
  (forall id, placeholder p = Some id -> mapping !! id = None) ->
  render mapping p = source p.
Proof.
  intros He Hp. destruct p as [c|[|id|id|]]; simpl in *;
    try reflexivity; try discriminate.
  - now rewrite (Hp id eq_refl).
  - now rewrite (Hp id eq_refl).
Qed.

Lemma render_all_source (mapping : Opts) (l : list Piece) :
  existsb is_escape l = false ->
  (forall id, id ∈ omap placeholder l -> mapping !! id = None) ->
  map (render mapping) l = map source l.
Proof.
  induction l as [|p l IH]; intros He Hp; [reflexivity|].
  simpl in He. apply orb_false_iff in He as [He1 He2]. simpl.
  rewrite IH; [| assumption |].
  - f_equal. apply render_source; [assumption|].
    intros id Hid. apply Hp. simpl. rewrite Hid. left.
  - intros id Hid. apply Hp. simpl. destruct (placeholder p); [right|]; assumption.
Qed.
End TemplateFacts.

(** ** The content resolver *)

Section ResolverFacts.
Context `{Platform}.

Lemma structure_leaf_is_tuple (contents : PyVal) :
  is_tuple (structure_leaf contents) = true.
Proof. unfold structure_leaf. destruct (is_tuple contents) eqn:E; [exact E | reflexivity]. Qed.

(** What is not callable is reified without an exception, and without a
    change of the options dict or of the file system. *)
Lemma reify_content_not_callable (content : PyVal) (opts : Opts) (w : World) :
  callable content = false ->
  exists v, reify_content content opts w = (Ok v, opts, w).
Proof. intros Hc. unfold reify_content. rewrite Hc. destruct content; eauto. Qed.

(** C4: [structure_leaf] pairs a leaf that is no tuple with the
    unconditional [create] operation, and returns a leaf that is a tuple
    unchanged. *)
Theorem structure_leaf_normalizes (contents : PyVal) :
  (is_tuple contents = false ->
   structure_leaf contents = VTuple [contents; VFileOp create])
  /\ (forall items, contents = VTuple items -> structure_leaf contents = contents).
Proof.
  split.
  - intros Hn. unfold structure_leaf. now rewrite Hn.
  - intros items ->. reflexivity.
Qed.

(** C2: [reify_content] dispatches in this order: a callable source is
    called with the options; otherwise a template is safely substituted
    with the options; otherwise the source is returned unchanged.  In the
    last two cases nothing is raised and neither the options dict nor the
    file system changes.  Safe substitution is a total function: the
    pieces of the template text make up the text, a placeholder whose key
    is absent from the options renders as its own source, and a template
    without [$$] whose placeholders are all absent comes back verbatim. *)
Theorem reify_content_dispatch (source : PyVal) (opts : Opts) (w : World) :
  (callable source = true ->
   reify_content source opts w = call1 source opts w)
  /\ (forall text call,
        callable source = false -> source = VTemplate text call ->
        reify_content source opts w
        = (Ok (VStr (Template.safe_substitute text opts)), opts, w))
  /\ (callable source = false -> is_template source = false ->
      reify_content source opts w = (Ok source, opts, w))
  /\ (forall text,
        Template.join (map Template.source (Template.pieces text)) = text
        /\ (forall p id,
              p ∈ Template.pieces text ->
              Template.placeholder p = Some id -> opts !! id = None ->
              Template.render opts p = Template.source p)
        /\ (Template.has_escape text = false ->
            (forall id, id ∈ Template.placeholders text -> opts !! id = None) ->
            Template.safe_substitute text opts = text)).
Proof.
  repeat split.
  - intros Hc. unfold reify_content. now rewrite Hc.
  - intros text call Hc ->. unfold reify_content. now rewrite Hc.
  - intros Hc Ht. unfold reify_content. rewrite Hc.
    destruct source; try reflexivity. discriminate Ht.
  - apply pieces_source.
  - intros p id _ Hp Hid. apply render_source.
    + destruct p as [c|[]]; try reflexivity. discriminate Hp.
    + intros id' Hid'. congruence.
  - intros He Hp. unfold Template.safe_substitute.
    rewrite render_all_source; [apply pieces_source | exact He | exact Hp].
Qed.
End ResolverFacts.

(** ** The default structure *)

Lemma dict_get_head {V} (k : Key) (v : V) (rest : list (Key * V)) :
  dict_get k ((k, v) :: rest) = Some v.
Proof. simpl. now rewrite decide_True. Qed.

Lemma dict_get_tail {V} (k k' : Key) (v : V) (rest : list (Key * V)) :
  k <> k' -> dict_get k ((k', v) :: rest) = dict_get k rest.
Proof. intros Hne. simpl. now rewrite decide_False. Qed.

Ltac dict_step :=
  first [ rewrite dict_get_head
        | rewrite dict_get_tail by discriminate ].

Lemma table_cons {A B} (a : A) (x y : B) (l l' : list (A * B)) :
  x = y -> l = l' -> (a, x) :: l = (a, y) :: l'.
Proof. now intros -> ->. Qed.

(** C10: [define_structure] ignores its first argument, and the options it
    returns are its second argument; it raises only when the options have
    no ["package"]. *)
Theorem define_structure_ignores_previous `{Templates}
    (s1 s2 : Structure) (opts : Opts) :
  define_structure s1 opts = define_structure s2 opts
  /\ match define_structure s1 opts with
     | Ok (_, opts') => opts' = opts /\ is_Some (opts !! "package")
     | Raise e => e = KeyError "package" /\ opts !! "package" = None
     end.
Proof.
  split; [reflexivity|].
  unfold define_structure, getitem.
  destruct (opts !! "package") as [package|] eqn:E.
  - split; [reflexivity | eauto].
  - split; reflexivity.
Qed.

(** C8: [ExternalGenerators.activate] raises its [RuntimeError] whatever
    it is called with; it never returns. *)
Theorem activate_fails_fast {Self Actions : Type} (self : Self)
    (actions : Actions) :
  ExternalGenerators.activate self actions
  = Raise (RuntimeError "Implemented but never called!")
  /\ (forall r, ExternalGenerators.activate self actions <> Ok r).
Proof. split; [reflexivity | discriminate]. Qed.

(** C7: the write policy of every file of the default structure.  The
    files to be edited by hand once ([README.rst], [AUTHORS.rst],
    [LICENSE.txt], [CHANGELOG.rst], [.gitignore], [setup.cfg],
    [.coveragerc], and also [tests/conftest.py] and [docs/index.rst]) have
    [NO_OVERWRITE]; the code stubs [skeleton.py] and [test_skeleton.py]
    have [SKIP_ON_UPDATE]; [setup.py] and the remaining generated files
    have the unconditional [create]. *)
Theorem default_structure_policies `{Templates}
    (previous : Structure) (opts : Opts) (package : Key) :
  opts !! "package" = Some package ->
  exists struct,
    define_structure previous opts = Ok (struct, opts)
    /\ map (fun path => (path, policy_at path struct)) (files_of (NDict struct))
       = default_policies package.
Proof.
  intros Hp. unfold define_structure, getitem. rewrite Hp.
  eexists. split; [reflexivity|].
  cbn [files_of map app]. unfold default_policies.
  repeat apply table_cons; try reflexivity;
    unfold policy_at; cbn [node_at]; repeat dict_step; reflexivity.
Qed.

(** ** Dicts *)

Section DictFacts.
Context {V : Type}.
Implicit Types (d : list (Key * V)) (k : Key) (v : V).

Lemma dict_get_set_eq k v d : dict_get k (dict_set k v d) = Some v.
Proof.
  induction d as [|[k' v'] d IH]; simpl.
  - now rewrite decide_True.
  - destruct (decide (k = k')) as [->|Hne]; simpl.
    + now rewrite decide_True.
    + now rewrite decide_False.
Qed.

Lemma dict_get_set_ne k k' v d :
  k' <> k -> dict_get k' (dict_set k v d) = dict_get k' d.
Proof.
  intros Hne. induction d as [|[k0 v0] d IH]; simpl.
  - now rewrite decide_False.
  - destruct (decide (k = k0)) as [->|Hk]; simpl.
    + now rewrite !decide_False.
    + destruct (decide (k' = k0)); [reflexivity | exact IH].
Qed.

Lemma dict_get_None k d : dict_get k d = None <-> k ∉ keys d.
Proof.
  induction d as [|[k' v'] d IH]; simpl.
  - split; [intros _; apply not_elem_of_nil | reflexivity].
  - rewrite not_elem_of_cons. destruct (decide (k = k')) as [->|Hne].
    + split; [discriminate | intros [Hk _]; now destruct Hk].
    + rewrite IH. tauto.
Qed.

Lemma has_key_keys k d : has_key k d = true <-> k ∈ keys d.
Proof.
  unfold has_key. destruct (dict_get k d) eqn:E.
  - split; [intros _ | reflexivity].
    destruct (decide (k ∈ keys d)) as [Hin|Hout]; [exact Hin|].
    apply dict_get_None in Hout. congruence.
  - apply dict_get_None in E. split; [discriminate | intros Hin; now destruct E].
Qed.

Lemma dict_get_Some_elem k v d : dict_get k d = Some v -> (k, v) ∈ d.
Proof.
  induction d as [|[k' v'] d IH]; simpl; [discriminate|].
  destruct (decide (k = k')) as [->|Hne].
  - intros [= ->]. left.
  - intros Hg. right. now apply IH.
Qed.
End DictFacts.

(** ** Running the reifier *)

Section ReifierFacts.
Context `{Collaborators}.

Lemma bind_inv {A B} (m : M A) (k : A -> M B) o w r o2 w2 t :
  bind m k o w = (r, o2, w2, t) ->
  (exists e, m o w = (Raise e, o2, w2, t) /\ r = Raise e)
  \/ (exists a o1 w1 t1 t2,
        m o w = (Ok a, o1, w1, t1) /\ k a o1 w1 = (r, o2, w2, t2)
        /\ t = t1 ++ t2).
Proof.
  unfold bind. destruct (m o w) as [[[[a|e] o1] w1] t1].
  - destruct (k a o1 w1) as [[[r' o2'] w2'] t2] eqn:Hk. intros [= <- <- <- <-].
    right. now exists a, o1, w1, t1, t2.
  - intros [= <- <- <- <-]. left. now exists e.
Qed.

Lemma bind_ok_inv {A B} (m : M A) (k : A -> M B) o w b o2 w2 t :
  bind m k o w = (Ok b, o2, w2, t) ->
  exists a o1 w1 t1 t2,
    m o w = (Ok a, o1, w1, t1) /\ k a o1 w1 = (Ok b, o2, w2, t2)
    /\ t = t1 ++ t2.
Proof.
  intros Hb. apply bind_inv in Hb as [(e & _ & He)|Hb]; [discriminate | exact Hb].
Qed.

Lemma bind_ok {A B} (m : M A) (k : A -> M B) o w a o1 w1 t1 r o2 w2 t2 :
  m o w = (Ok a, o1, w1, t1) -> k a o1 w1 = (r, o2, w2, t2) ->
  bind m k o w = (r, o2, w2, t1 ++ t2).
Proof. intros Hm Hk. unfold bind. now rewrite Hm, Hk. Qed.

Lemma bind_ext {A B} (m m' : M A) (k k' : A -> M B) o w :
  m o w = m' o w -> (forall a o1 w1, k a o1 w1 = k' a o1 w1) ->
  bind m k o w = bind m' k' o w.
Proof.
  intros Hm Hk. unfold bind. rewrite Hm.
  destruct (m' o w) as [[[[a|e] o1] w1] t1]; [now rewrite Hk | reflexivity].
Qed.

Lemma lift_ok_inv {A} (r : Exc A) o w a o' w' t :
  lift r o w = (Ok a, o', w', t) -> r = Ok a /\ o' = o /\ w' = w /\ t = [].
Proof. unfold lift. now intros [= -> -> -> <-]. Qed.

Lemma ret_inv {A} (a : A) o w r o' w' t :
  ret a o w = (r, o', w', t) -> r = Ok a /\ o' = o /\ w' = w /\ t = [].
Proof. unfold ret. now intros [= <- -> -> <-]. Qed.

Lemma the_opts_inv o w r o' w' t :
  the_opts o w = (r, o', w', t) -> r = Ok o /\ o' = o /\ w' = w /\ t = [].
Proof. unfold the_opts. now intros [= <- -> -> <-]. Qed.

Lemma call_create_directory_ok_inv path update pretend o w u o' w' t :
  call_create_directory path update pretend o w = (Ok u, o', w', t) ->
  create_directory path update pretend w = (Ok tt, w')
  /\ o' = o
  /\ t = [EvMkdir path update pretend].
Proof.
  unfold call_create_directory.
  destruct (create_directory path update pretend w) as [[[]|e] w1]; [|discriminate].
  now intros [= <- <- <-].
Qed.

Lemma call_reify_ok_inv template o w content o' w' t :
  call_reify template o w = (Ok content, o', w', t) ->
  reify_content template o w = (Ok content, o', w') /\ t = [].
Proof.
  unfold call_reify.
  destruct (reify_content template o w) as [[r o1] w1].
  now intros [= -> -> -> <-].
Qed.

Lemma call3_ok_inv file_op path content o w b o' w' t :
  call3 file_op path content o w = (Ok b, o', w', t) ->
  exists op,
    file_op = VFileOp op
    /\ run_op op path content o w = (Ok b, o', w')
    /\ t = [EvFileOp op path content o (Ok b)].
Proof.
  destruct file_op; simpl; try discriminate.
  destruct (run_op op path content o w) as [[r o1] w1] eqn:Hr.
  intros [= -> <- <- <-]. now exists op.
Qed.

Lemma unpack2_ok_inv leaf a b :
  unpack2 leaf = Ok (a, b) -> leaf = VTuple [a; b].
Proof.
  destruct leaf as [| | | | | | | |items]; try discriminate.
  destruct items as [|x [|y [|z items]]]; try discriminate.
  now intros [= -> ->].
Qed.

Lemma truediv_ok_inv prefix name path :
  truediv prefix name = Ok path ->
  exists file, name = OStr file /\ path = joinpath prefix file.
Proof. destruct name; try discriminate. intros [= <-]. now eexists. Qed.

(** What a successful pass through the loop body did. *)
Lemma visit_ok rec update pretend prefix name node changed o w changed' o' w' t :
  visit rec update pretend prefix name node changed o w
  = (Ok changed', o', w', t) ->
  exists file,
    name = OStr file /\
    match node with
    | NDict _ =>
        exists w1 sub ro t2,
          create_directory (PPath (joinpath prefix file)) update pretend w
          = (Ok tt, w1)
          /\ rec node (Some (PPath (joinpath prefix file))) o w1
             = (Ok (sub, ro), o', w', t2)
          /\ t = EvMkdir (PPath (joinpath prefix file)) update pretend :: t2
          /\ changed' = dict_set name (NDict sub) changed
    | NLeaf leaf =>
        exists template op content b o1 w1,
          structure_leaf leaf = VTuple [template; VFileOp op]
          /\ reify_content template o w = (Ok content, o1, w1)
          /\ run_op op (joinpath prefix file) content o1 w1 = (Ok b, o', w')
          /\ t = [EvFileOp op (joinpath prefix file) content o1 (Ok b)]
          /\ changed' = if b then dict_set name (NLeaf content) changed
                        else changed
    end.
Proof.
  unfold visit. intros Hv.
  apply bind_ok_inv in Hv as (path & o0 & w0 & t0 & t1 & Hp & Hv & ->).
  apply lift_ok_inv in Hp as (Hp & -> & -> & ->).
  apply truediv_ok_inv in Hp as (file & -> & ->).
  exists file. split; [reflexivity|]. simpl.
  destruct node as [items|leaf].
  - apply bind_ok_inv in Hv as (u & o1 & w1 & t2 & t3 & Hd & Hv & ->).
    apply call_create_directory_ok_inv in Hd as (Hd & -> & ->).
    apply bind_ok_inv in Hv as ([sub ro] & o2 & w2 & t4 & t5 & Hr & Hv & ->).
    apply ret_inv in Hv as (Hv & -> & -> & ->). injection Hv as ->.
    exists w1, sub, ro, t4. rewrite app_nil_r. simpl. auto.
  - apply bind_ok_inv in Hv
      as ([template file_op] & o1 & w1 & t2 & t3 & Hu & Hv & ->).
    apply lift_ok_inv in Hu as (Hu & -> & -> & ->).
    apply unpack2_ok_inv in Hu.
    apply bind_ok_inv in Hv as (content & o2 & w2 & t4 & t5 & Hc & Hv & ->).
    apply call_reify_ok_inv in Hc as (Hc & ->).
    apply bind_ok_inv in Hv as (b & o3 & w3 & t6 & t7 & Hop & Hv & ->).
    apply call3_ok_inv in Hop as (op & -> & Hop & ->).
    exists template, op, content, b, o2, w2.
    destruct b; apply ret_inv in Hv as (Hv & -> & -> & ->); injection Hv as ->;
      simpl; auto 6.
Qed.

Lemma for_items_cons_ok rec update pretend prefix name node rest
    changed o w final o' w' t :
  for_items rec update pretend prefix ((name, node) :: rest) changed o w
  = (Ok final, o', w', t) ->
  exists c1 o1 w1 t1 t2,
    visit rec update pretend prefix name node changed o w = (Ok c1, o1, w1, t1)
    /\ for_items rec update pretend prefix rest c1 o1 w1 = (Ok final, o', w', t2)
    /\ t = t1 ++ t2.
Proof. simpl. apply bind_ok_inv. Qed.

(** The loop body changes the entry of its own name only. *)
Lemma visit_other rec update pretend prefix name node changed o w c1 o1 w1 t1 k :
  visit rec update pretend prefix name node changed o w = (Ok c1, o1, w1, t1) ->
  k <> name -> dict_get k c1 = dict_get k changed.
Proof.
  intros Hv Hne. apply visit_ok in Hv as (file & -> & Hv).
  destruct node as [items|leaf].
  - destruct Hv as (? & sub & ? & ? & _ & _ & _ & ->).
    now apply dict_get_set_ne.
  - destruct Hv as (? & ? & content & b & ? & ? & _ & _ & _ & _ & ->).
    destruct b; [now apply dict_get_set_ne | reflexivity].
Qed.

(** The loop body leaves the dict as it is or sets the entry of its name. *)
Lemma visit_changed rec update pretend prefix name node changed o w c1 o1 w1 t1 :
  visit rec update pretend prefix name node changed o w = (Ok c1, o1, w1, t1) ->
  c1 = changed \/ exists entry, c1 = dict_set name entry changed.
Proof.
  intros Hv. apply visit_ok in Hv as (file & -> & Hv).
  destruct node as [items|leaf].
  - destruct Hv as (? & sub & ? & ? & _ & _ & _ & ->). right. eauto.
  - destruct Hv as (? & ? & content & b & ? & ? & _ & _ & _ & _ & ->).
    destruct b; [right; eauto | now left].
Qed.

Lemma for_items_other rec update pretend prefix items :
  forall changed o w final o' w' t k,
    for_items rec update pretend prefix items changed o w
    = (Ok final, o', w', t) ->
    k ∉ keys items -> dict_get k final = dict_get k changed.
Proof.
  induction items as [|[name node] rest IH];
    intros changed o w final o' w' t k Hf Hk.
  - apply ret_inv in Hf as (Hf & _). now injection Hf as ->.
  - apply for_items_cons_ok in Hf as (c1 & o1 & w1 & t1 & t2 & Hv & Hf & ->).
    simpl in Hk. apply not_elem_of_cons in Hk as [Hne Hk].
    rewrite (IH _ _ _ _ _ _ _ _ Hf Hk). eapply visit_other; eauto.
Qed.

(** What a successful call did: the root directory when no prefix was
    given, then the loop below the prefix, with the flags read from the
    options dict the call started on; it returns the dict as it is at the
    end. *)
Lemma create_structure_node_ok n prefix o w changed ro o' w' t :
  create_structure_node n prefix o w = (Ok (changed, ro), o', w', t) ->
  exists items root w1 t1,
    n = NDict items
    /\ Path_ (root_arg o prefix) = Ok root
    /\ for_items create_structure_node (flag_of o) (get o "pretend") root
         items [] o w1
       = (Ok changed, o', w', t1)
    /\ ro = o'
    /\ match prefix with
       | None =>
           create_directory (root_arg o prefix) (flag_of o) (get o "pretend") w
           = (Ok tt, w1)
           /\ t = EvMkdir (root_arg o prefix) (flag_of o) (get o "pretend") :: t1
       | Some _ => w1 = w /\ t = t1
       end.
Proof.
  intros Hc.
  destruct n as [items|leaf]; simpl in Hc;
    apply bind_ok_inv in Hc as (o0 & oa & wa & ta & tb & Ho & Hc & ->);
    apply the_opts_inv in Ho as (Ho & -> & -> & ->); injection Ho as ->;
    apply bind_ok_inv in Hc as (p & o1 & w1 & t0 & t1 & Hp & Hc & ->);
    apply bind_ok_inv in Hc as (root & o2 & w2 & t2 & t3 & Hr & Hc & ->);
    apply lift_ok_inv in Hr as (Hr & -> & -> & ->).
  2: { discriminate Hc. }
  apply bind_ok_inv in Hc as (ch & o3 & w3 & t4 & t5 & Hf & Hc & ->).
  apply bind_ok_inv in Hc as (o4 & o5 & w5 & t6 & t7 & Ho & Hc & ->).
  apply the_opts_inv in Ho as (Ho & -> & -> & ->). injection Ho as ->.
  apply ret_inv in Hc as (Hc & -> & -> & ->). injection Hc as -> ->.
  destruct prefix as [prefix|]; simpl in *.
  - apply ret_inv in Hp as (Hp & -> & -> & ->). injection Hp as ->.
    exists items, root, w, t4. rewrite !app_nil_r.
    repeat split; assumption.
  - apply bind_ok_inv in Hp as (u & o6 & w6 & t8 & t9 & Hd & Hp & ->).
    apply call_create_directory_ok_inv in Hd as (Hd & -> & ->).
    apply ret_inv in Hp as (Hp & -> & -> & ->). injection Hp as ->.
    eexists items, root, _, t4. rewrite !app_nil_r.
    repeat split; try eassumption; reflexivity.
Qed.

(** The loop over a list in two parts. *)
Lemma for_items_app rec update pretend prefix l1 l2 :
  forall changed o w c0 o1 w1 t0 r o2 w2 t,
    for_items rec update pretend prefix l1 changed o w = (Ok c0, o1, w1, t0) ->
    for_items rec update pretend prefix l2 c0 o1 w1 = (r, o2, w2, t) ->
    for_items rec update pretend prefix (l1 ++ l2) changed o w
    = (r, o2, w2, t0 ++ t).
Proof.
  induction l1 as [|[k n] rest IH];
    intros changed o w c0 o1 w1 t0 r o2 w2 t H1 H2.
  - apply ret_inv in H1 as (H1 & -> & -> & ->). injection H1 as ->. exact H2.
  - apply for_items_cons_ok in H1 as (c1 & oa & wa & ta & tb & Hv & H1 & ->).
    simpl. rewrite <- app_assoc.
    eapply bind_ok; [exact Hv|]. exact (IH _ _ _ _ _ _ _ _ _ _ _ H1 H2).
Qed.

Lemma for_items_snoc rec update pretend prefix before name node :
  forall changed o w c0 o1 w1 t0 r o2 w2 t,
    for_items rec update pretend prefix before changed o w
    = (Ok c0, o1, w1, t0) ->
    visit rec update pretend prefix name node c0 o1 w1 = (r, o2, w2, t) ->
    for_items rec update pretend prefix (before ++ [(name, node)]) changed o w
    = (r, o2, w2, t0 ++ t).
Proof.
  intros changed o w c0 o1 w1 t0 r o2 w2 t H1 Hv.
  eapply for_items_app; [exact H1|]. simpl. unfold bind. rewrite Hv.
  destruct r; [|reflexivity]. simpl. now rewrite app_nil_r.
Qed.

Lemma visit_dir_ok rec update pretend prefix file sub changed o w wd
    sub_changed ro o' w' t :
  create_directory (PPath (joinpath prefix file)) update pretend w = (Ok tt, wd) ->
  rec (NDict sub) (Some (PPath (joinpath prefix file))) o wd
  = (Ok (sub_changed, ro), o', w', t) ->
  visit rec update pretend prefix (OStr file) (NDict sub) changed o w
  = (Ok (dict_set (OStr file) (NDict sub_changed) changed), o', w',
     EvMkdir (PPath (joinpath prefix file)) update pretend :: t).
Proof.
  intros Hd Hrec. unfold visit.
  change (EvMkdir (PPath (joinpath prefix file)) update pretend :: t)
    with ([] ++ [EvMkdir (PPath (joinpath prefix file)) update pretend] ++ t).
  eapply bind_ok; [reflexivity|].
  eapply bind_ok; [unfold call_create_directory; now rewrite Hd|].
  rewrite <- (app_nil_r t).
  eapply bind_ok; [exact Hrec | reflexivity].
Qed.

Lemma keys_split_fresh {V} (before after : list (Key * V)) name v :
  NoDup (keys (before ++ (name, v) :: after)) -> name ∉ keys before.
Proof.
  unfold keys. rewrite map_app. simpl. intros Hnd Hin.
  apply NoDup_app in Hnd as (_ & Hd & _). apply (Hd name Hin). left.
Qed.

(** A file of the dict that is walked: its leaf was normalized, its
    content reified on the options dict as the entries before it left
    it, its operation called at its path with the content and the dict,
    and its entry in the result is the content when the operation
    reported a change. *)
Lemma for_items_leaf rec update pretend prefix items :
  forall changed o w final o' w' t name leaf,
    for_items rec update pretend prefix items changed o w
    = (Ok final, o', w', t) ->
    NoDup (keys items) ->
    (name, NLeaf leaf) ∈ items ->
    exists before after c0 t0 file template op content b o1 w1 o2 w2 o3 w3,
      items = before ++ (name, NLeaf leaf) :: after
      /\ for_items rec update pretend prefix before changed o w
         = (Ok c0, o1, w1, t0)
      /\ name = OStr file
      /\ structure_leaf leaf = VTuple [template; VFileOp op]
      /\ reify_content template o1 w1 = (Ok content, o2, w2)
      /\ run_op op (joinpath prefix file) content o2 w2 = (Ok b, o3, w3)
      /\ EvFileOp op (joinpath prefix file) content o2 (Ok b) ∈ t
      /\ dict_get name final
         = if b then Some (NLeaf content) else dict_get name changed.
Proof.
  induction items as [|[k n] rest IH];
    intros changed o w final o' w' t name leaf Hf Hnd Hin.
  - now apply elem_of_nil in Hin.
  - apply for_items_cons_ok in Hf as (c1 & o1 & w1 & t1 & t2 & Hv & Hf & ->).
    simpl in Hnd. apply NoDup_cons in Hnd as [Hk Hnd].
    apply elem_of_cons in Hin as [Heq|Hin].
    + injection Heq as <- <-.
      rewrite (for_items_other _ _ _ _ _ _ _ _ _ _ _ _ _ Hf Hk).
      apply visit_ok in Hv as (file & -> & Hv).
      destruct Hv as (template & op & content & b & o2 & w2
                      & Hl & Hc & Hop & -> & ->).
      exists [], rest, changed, [], file, template, op, content, b,
        o, w, o2, w2, o1, w1.
      repeat split; try assumption.
      * apply elem_of_app. left. left.
      * destruct b; [apply dict_get_set_eq | reflexivity].
    + destruct (IH _ _ _ _ _ _ _ _ _ Hf Hnd Hin)
        as (before & after & c0 & t0 & file & template & op & content & b
            & oa & wa & ob & wb & oc & wc
            & -> & Hb & -> & Hl & Hc & Hop & Hev & Hg).
      exists ((k, n) :: before), after, c0, (t1 ++ t0), file, template, op,
        content, b, oa, wa, ob, wb, oc, wc.
      repeat split; try assumption.
      * simpl. eapply bind_ok; eassumption.
      * apply elem_of_app. now right.
      * rewrite Hg. destruct b; [reflexivity|].
        eapply visit_other; [exact Hv|].
        intros <-. apply Hk. unfold keys. apply list_elem_of_fmap.
        exists (OStr file, NLeaf leaf). split; [reflexivity|].
        apply elem_of_app. right. left.
Qed.

(** A directory of the dict that is walked: it was created and the
    recursive call on it made on the options dict as the entries before
    it left it; the call returned, its calls are among the calls of the
    loop, and its changed tree is the entry of the directory in the
    result. *)
Lemma for_items_dir rec update pretend prefix items :
  forall changed o w final o' w' t name sub,
    for_items rec update pretend prefix items changed o w
    = (Ok final, o', w', t) ->
    NoDup (keys items) ->
    (name, NDict sub) ∈ items ->
    exists before after c0 t0 file o1 w1 wd o2 w2 sub_changed ro t2,
      items = before ++ (name, NDict sub) :: after
      /\ for_items rec update pretend prefix before changed o w
         = (Ok c0, o1, w1, t0)
      /\ name = OStr file
      /\ create_directory (PPath (joinpath prefix file)) update pretend w1
         = (Ok tt, wd)
      /\ rec (NDict sub) (Some (PPath (joinpath prefix file))) o1 wd
         = (Ok (sub_changed, ro), o2, w2, t2)
      /\ (forall ev, ev ∈ t2 -> ev ∈ t)
      /\ dict_get name final = Some (NDict sub_changed).
Proof.
  induction items as [|[k n] rest IH];
    intros changed o w final o' w' t name sub Hf Hnd Hin.
  - now apply elem_of_nil in Hin.
  - apply for_items_cons_ok in Hf as (c1 & o1 & w1 & t1 & t2 & Hv & Hf & ->).
    simpl in Hnd. apply NoDup_cons in Hnd as [Hk Hnd].
    apply elem_of_cons in Hin as [Heq|Hin].
    + injection Heq as <- <-.
      rewrite (for_items_other _ _ _ _ _ _ _ _ _ _ _ _ _ Hf Hk).
      apply visit_ok in Hv as (file & -> & Hv).
      destruct Hv as (wa & sub_changed & ro & t3 & Hd & Hrec & -> & ->).
      exists [], rest, changed, [], file, o, w, wa, o1, w1, sub_changed, ro, t3.
      repeat split; try assumption.
      * intros ev Hev. apply elem_of_app. left. now right.
      * apply dict_get_set_eq.
    + destruct (IH _ _ _ _ _ _ _ _ _ Hf Hnd Hin)
        as (before & after & c0 & t0 & file & oa & wa & wd & ob & wb
            & sub_changed & ro & t3
            & -> & Hb & -> & Hd & Hrec & Hsub & Hg).
      exists ((k, n) :: before), after, c0, (t1 ++ t0), file, oa, wa, wd,
        ob, wb, sub_changed, ro, t3.
      repeat split; try assumption.
      * simpl. eapply bind_ok; eassumption.
      * intros ev Hev. apply elem_of_app. right. now apply Hsub.
Qed.

(** The call on a dict, from its parts. *)
Lemma create_structure_node_build items prefix o w root w1 changed o' w' t1 :
  Path_ (root_arg o prefix) = Ok root ->
  match prefix with
  | None =>
      create_directory (root_arg o prefix) (flag_of o) (get o "pretend") w
      = (Ok tt, w1)
  | Some _ => w1 = w
  end ->
  for_items create_structure_node (flag_of o) (get o "pretend") root
    items [] o w1
  = (Ok changed, o', w', t1) ->
  create_structure_node (NDict items) prefix o w
  = (Ok (changed, o'), o', w',
     match prefix with
     | None => EvMkdir (root_arg o prefix) (flag_of o) (get o "pretend") :: t1
     | Some _ => t1
     end).
Proof.
  intros Hroot Hp Hf. simpl.
  assert (Hb : forall B (k : Opts -> M B), bind the_opts k o w = k o o w).
  { intros B k. unfold bind, the_opts.
    now destruct (k o o w) as [[[r o2] w2] t2]. }
  rewrite Hb.
  assert (Hpre :
    match prefix with
    | Some prefix => ret prefix
    | None =>
        bind (call_create_directory
                (PRaw (get_default o "project_path" (OStr ".")))
                (py_or (get o "update") (get o "force")) (get o "pretend"))
          (fun _ => ret (PRaw (get_default o "project_path" (OStr "."))))
    end o w
    = (Ok (root_arg o prefix), o, w1,
       match prefix with
       | None => [EvMkdir (root_arg o prefix) (flag_of o) (get o "pretend")]
       | Some _ => []
       end)).
  { destruct prefix as [p|]; [now subst w1|].
    change [EvMkdir (root_arg o None) (flag_of o) (get o "pretend")]
      with ([EvMkdir (root_arg o None) (flag_of o) (get o "pretend")] ++ []).
    eapply bind_ok; [|reflexivity].
    unfold call_create_directory. simpl in Hp. unfold flag_of in Hp.
    now rewrite Hp. }
  replace (match prefix with
           | None => EvMkdir (root_arg o prefix) (flag_of o) (get o "pretend") :: t1
           | Some _ => t1
           end)
    with (match prefix with
          | None => [EvMkdir (root_arg o prefix) (flag_of o) (get o "pretend")]
          | Some _ => []
          end ++ [] ++ t1 ++ [] ++ [])
    by (rewrite !app_nil_r; now destruct prefix).
  eapply bind_ok; [exact Hpre|].
  eapply bind_ok; [unfold lift; now rewrite Hroot|].
  eapply bind_ok; [exact Hf|].
  unfold bind, the_opts, ret. reflexivity.
Qed.
End ReifierFacts.

(** ** The walk *)

Section Walk.
Context `{Collaborators}.

Lemma bind_calls_prefix {A B} (m : M A) (k : A -> M B) o w :
  exists rest, calls_of (bind m k o w) = calls_of (m o w) ++ rest.
Proof.
  unfold bind, calls_of. destruct (m o w) as [[[[a|e] o1] w1] t1]; simpl.
  - destruct (k a o1 w1) as [[[r o2] w2] t2]. simpl. now exists t2.
  - exists []. now rewrite app_nil_r.
Qed.

Lemma bind_the_opts {B} (k : Opts -> M B) o w :
  bind the_opts k o w = k o o w.
Proof.
  unfold bind, the_opts. now destruct (k o o w) as [[[r o2] w2] t2].
Qed.

Lemma call_create_directory_calls path update pretend o w :
  calls_of (call_create_directory path update pretend o w)
  = [EvMkdir path update pretend].
Proof.
  unfold call_create_directory, calls_of.
  now destruct (create_directory path update pretend w).
Qed.

Lemma truthy_py_or (a b : OptVal) : truthy (py_or a b) = truthy a || truthy b.
Proof. unfold py_or. destruct (truthy a) eqn:E; [now rewrite E | reflexivity]. Qed.

(** C1: for a file [(name, leaf)] of the dict a successful
    [create_structure] walks, the leaf is normalized into a template and
    an operation, the template is reified with the options dict, as the
    walk of the entries before the file left it, giving a content, and
    the operation is called with the path [prefix / name], the content
    and the dict; the changed tree maps [name] to the content exactly
    when the operation returned true, and has no [name] when it returned
    false. *)
Theorem create_structure_leaf (struct : Structure) (opts : Opts)
    (prefix : option PathArg) (w : World) (changed : Structure)
    (opts' o' : Opts) (w' : World) (calls : list Event)
    (name : Key) (leaf : PyVal) :
  create_structure struct opts prefix w = (Ok (changed, opts'), o', w', calls) ->
  NoDup (keys struct) ->
  (name, NLeaf leaf) ∈ struct ->
  exists root file template op content b o1 w1 o2 w2 o3 w3,
    Path_ (root_arg opts prefix) = Ok root
    /\ name = OStr file
    /\ structure_leaf leaf = VTuple [template; VFileOp op]
    /\ (exists before after changed0 calls0,
          struct = before ++ (name, NLeaf leaf) :: after
          /\ create_structure before opts prefix w
             = (Ok (changed0, o1), o1, w1, calls0))
    /\ reify_content template o1 w1 = (Ok content, o2, w2)
    /\ run_op op (joinpath root file) content o2 w2 = (Ok b, o3, w3)
    /\ EvFileOp op (joinpath root file) content o2 (Ok b) ∈ calls
    /\ (dict_get name changed = Some (NLeaf content) <-> b = true)
    /\ (b = false -> dict_get name changed = None).
Proof.
  intros Hc Hnd Hin. unfold create_structure in Hc.
  apply create_structure_node_ok in Hc
    as (items & root & w1 & t1 & Hi & Hroot & Hf & -> & Hp).
  injection Hi as <-.
  destruct (for_items_leaf _ _ _ _ _ _ _ _ _ _ _ _ _ _ Hf Hnd Hin)
    as (before & after & c0 & t0 & file & template & op & content & b
        & oa & wa & ob & wb & oc & wc
        & Hs & Hb & -> & Hl & Hr & Hop & Hev & Hg).
  exists root, file, template, op, content, b, oa, wa, ob, wb, oc, wc.
  split; [assumption|]. split; [reflexivity|]. split; [assumption|].
  split.
  { exists before, after, c0. eexists. split; [exact Hs|].
    unfold create_structure.
    apply (create_structure_node_build before prefix opts w root w1);
      [exact Hroot | | exact Hb].
    destruct prefix; exact (proj1 Hp). }
  repeat split; try assumption.
  - destruct prefix; [destruct Hp as [_ ->]; exact Hev|].
    destruct Hp as [_ ->]. now right.
  - intros Hs'. rewrite Hg in Hs'. destruct b; [reflexivity | discriminate Hs'].
  - intros ->. exact Hg.
  - intros ->. exact Hg.
Qed.

(** C6: the outermost call (no prefix) first calls [create_directory] on
    the project path, and the flag it passes is [update or force]: it is
    true exactly when [update] or [force] is, so options with [force]
    set are treated as options with [update] set. *)
Theorem root_directory_flag (struct : Structure) (opts : Opts) (w : World) :
  let flag := py_or (get opts "update") (get opts "force") in
  (exists rest,
     calls_of (create_structure struct opts None w)
     = EvMkdir (PRaw (get_default opts "project_path" (OStr "."))) flag
         (get opts "pretend") :: rest)
  /\ truthy flag = truthy (get opts "update") || truthy (get opts "force").
Proof.
  intros flag. split; [|apply truthy_py_or].
  unfold create_structure. simpl. rewrite bind_the_opts.
  match goal with
  | |- context [bind (bind ?m ?k1) ?k2 opts w] =>
      destruct (bind_calls_prefix (bind m k1) k2 opts w) as [r1 ->];
      destruct (bind_calls_prefix m k1 opts w) as [r2 ->]
  end.
  rewrite call_create_directory_calls. simpl. eauto.
Qed.
End Walk.

(** ** The shape of the changed tree *)

Section Shape.
Context `{Collaborators}.

Lemma has_key_set {V} (k k' : Key) (v : V) (d : list (Key * V)) :
  has_key k (dict_set k' v d) = true -> k = k' \/ has_key k d = true.
Proof.
  destruct (decide (k = k')) as [->|Hne]; [now left|].
  unfold has_key. rewrite dict_get_set_ne by exact Hne. now right.
Qed.

Lemma for_items_mirrors update pretend prefix items :
  Forall (fun kn => mirrored (snd kn)) items ->
  forall changed o w final o' w' t,
    for_items create_structure_node update pretend prefix items changed o w
    = (Ok final, o', w', t) ->
    NoDup (keys items) ->
    forallb (fun kn => uniq_keys (snd kn)) items = true ->
    (forall k, has_key k final = true ->
               has_key k changed = true \/ k ∈ keys items)
    /\ (forall kn, kn ∈ items -> dict_get (fst kn) changed = None ->
          match dict_get (fst kn) final with
          | Some v => mirrors (snd kn) v
          | None => is_leaf (snd kn)
          end = true).
Proof.
  induction 1 as [|[name node] rest IHnode _ IH];
    intros changed o w final o' w' t Hf Hnd Hu.
  - apply ret_inv in Hf as (Hf & _). injection Hf as ->.
    split; [now left | intros kn Hin; now apply elem_of_nil in Hin].
  - apply for_items_cons_ok in Hf as (c1 & o1 & w1 & t1 & t2 & Hv & Hf & ->).
    simpl in Hnd. apply NoDup_cons in Hnd as [Hk Hnd].
    simpl in Hu. apply andb_true_iff in Hu as [Hun Hu].
    destruct (IH _ _ _ _ _ _ _ Hf Hnd Hu) as [Hkeys Hent].
    pose proof (for_items_other _ _ _ _ _ _ _ _ _ _ _ _ name Hf Hk) as Hsame.
    pose proof Hv as Hv'. apply visit_ok in Hv' as (file & -> & Hv').
    split.
    + intros k Hkf. destruct (Hkeys k Hkf) as [Hc1|Hin].
      * destruct (visit_changed _ _ _ _ _ _ _ _ _ _ _ _ _ Hv) as [->|[entry ->]].
        -- now left.
        -- apply has_key_set in Hc1 as [->|Hc]; [right; left | now left].
      * right. now right.
    + intros kn Hin Hnone. apply elem_of_cons in Hin as [->|Hin].
      * simpl in *. rewrite Hsame.
        destruct node as [items|leaf].
        -- destruct Hv' as (? & sub & ro & ? & _ & Hrec & _ & ->).
           rewrite dict_get_set_eq. exact (IHnode _ _ _ _ _ _ _ _ Hrec Hun).
        -- destruct Hv' as (? & ? & content & b & ? & ? & _ & _ & _ & _ & ->).
           destruct b; [now rewrite dict_get_set_eq | now rewrite Hnone].
      * apply Hent; [exact Hin|].
        rewrite <- Hnone. eapply visit_other; [exact Hv|].
        intros Heq. apply Hk. rewrite <- Heq. unfold keys.
        apply list_elem_of_fmap. now exists kn.
Qed.

Lemma create_structure_node_mirrors (n : Node) : mirrored n.
Proof.
  induction n as [leaf|items IH] using Node_induction;
    intros prefix o w changed ro o' w' t Hc Hu.
  - apply create_structure_node_ok in Hc as (items & ? & ? & ? & Hi & _).
    discriminate Hi.
  - apply create_structure_node_ok in Hc
      as (items' & root & w1 & t1 & Hi & _ & Hf & _ & _).
    injection Hi as <-.
    simpl in Hu. apply andb_true_iff in Hu as [Hnd Hu].
    apply bool_decide_eq_true in Hnd.
    destruct (for_items_mirrors _ _ _ _ IH _ _ _ _ _ _ _ Hf Hnd Hu)
      as [Hkeys Hent].
    simpl. apply andb_true_iff. split.
    + apply forallb_forall. intros k Hin.
      apply list_elem_of_In, has_key_keys in Hin.
      destruct (Hkeys k Hin) as [Hc|Hc]; [discriminate Hc|].
      now apply has_key_keys.
    + apply forallb_forall. intros kn Hin.
      apply list_elem_of_In in Hin. now apply Hent.
Qed.

(** C3: the changed tree of a successful [create_structure] mirrors the
    input tree at every level.  It has no key that the input does not
    have at that level, a file of the input is a file in it or is absent,
    and every directory of the input is in it as a dict (an empty one
    when nothing below changed). *)
Theorem changed_tree_mirrors_input (struct : Structure) (opts : Opts)
    (prefix : option PathArg) (w : World) (changed : Structure)
    (opts' o' : Opts) (w' : World) (calls : list Event) :
  create_structure struct opts prefix w = (Ok (changed, opts'), o', w', calls) ->
  uniq_keys (NDict struct) = true ->
  mirrors (NDict struct) (NDict changed) = true
  /\ (forall name, name ∈ keys changed -> name ∈ keys struct)
  /\ (forall name sub,
        dict_get name struct = Some (NDict sub) ->
        exists sub',
          dict_get name changed = Some (NDict sub')
          /\ mirrors (NDict sub) (NDict sub') = true)
  /\ (forall name leaf v,
        dict_get name struct = Some (NLeaf leaf) ->
        dict_get name changed = Some v -> is_leaf v = true).
Proof.
  intros Hc Hu.
  pose proof (create_structure_node_mirrors _ _ _ _ _ _ _ _ _ Hc Hu) as Hm.
  split; [exact Hm|].
  simpl in Hm. apply andb_true_iff in Hm as [Hk He].
  rewrite forallb_forall in Hk, He.
  split; [|split].
  - intros name Hin. apply has_key_keys, Hk. now apply list_elem_of_In.
  - intros name sub Hg. apply dict_get_Some_elem, list_elem_of_In in Hg.
    specialize (He _ Hg). simpl in He.
    destruct (dict_get name changed) as [[sub'|v]|]; try discriminate He.
    exists sub'. split; [reflexivity | exact He].
  - intros name leaf v Hg Hv. apply dict_get_Some_elem, list_elem_of_In in Hg.
    specialize (He _ Hg). simpl in He. rewrite Hv in He.
    destruct v; [discriminate He | reflexivity].
Qed.
End Shape.

(** ** States the walk passes through *)

Section States.
Context `{Collaborators}.
Variable K : Opts -> World -> Prop.
Hypothesis K_mkdir : mkdir_keeps K.

Lemma stays_ret {A} (a : A) : stays K (ret a).
Proof. intros o w HK. split; [exact HK | constructor]. Qed.

Lemma stays_raise {A} (e : PyExc) : stays K (raise (A := A) e).
Proof. intros o w HK. split; [exact HK | constructor]. Qed.

Lemma stays_lift {A} (r : Exc A) : stays K (lift r).
Proof. intros o w HK. split; [exact HK | constructor]. Qed.

Lemma stays_bind {A B} (m : M A) (k : A -> M B) :
  stays K m -> (forall a, stays K (k a)) -> stays K (bind m k).
Proof.
  intros Hm Hk o w HK. specialize (Hm o w HK). unfold bind.
  destruct (m o w) as [[[[a|e] o1] w1] t1].
  - unfold opts_of, world_of, calls_of in Hm. simpl in Hm. destruct Hm as [HK1 Ht1].
    specialize (Hk a o1 w1 HK1). destruct (k a o1 w1) as [[[r o2] w2] t2].
    unfold opts_of, world_of, calls_of in *. simpl in *.
    destruct Hk as [HK2 Ht2]. split; [exact HK2|].
    apply Forall_app. now split.
  - exact Hm.
Qed.

(** Reading the dict: what follows can rely on the dict it was given
    being in a [K] state. *)
Lemma stays_the_opts {B} (k : Opts -> M B) :
  (forall o0 w0, K o0 w0 -> forall o w, o = o0 -> K o w ->
     K (opts_of (k o0 o w)) (world_of (k o0 o w))
     /\ Forall (from_state K) (calls_of (k o0 o w))) ->
  stays K (bind the_opts k).
Proof.
  intros Hk o w HK. rewrite bind_the_opts. now apply (Hk o w HK).
Qed.

Lemma stays_mkdir path o0 w0 :
  K o0 w0 ->
  stays K (call_create_directory path (flag_of o0) (get o0 "pretend")).
Proof.
  intros HK0 o w HK. pose proof (K_mkdir path o0 w0 o w HK0 HK) as Hd.
  unfold call_create_directory, opts_of, world_of, calls_of.
  destruct (create_directory path (flag_of o0) (get o0 "pretend") w) as [r w1].
  simpl in *. split; [exact Hd|].
  constructor; [|constructor]. now exists o0, w0.
Qed.

Lemma stays_reify template : reify_keeps K template -> stays K (call_reify template).
Proof.
  intros Hr o w HK. specialize (Hr o w HK).
  unfold call_reify, opts_of, world_of, calls_of, out_opts, out_world in *.
  destruct (reify_content template o w) as [[r o1] w1]. simpl in *.
  split; [exact Hr | constructor].
Qed.

Lemma stays_call3 file_op path content :
  op_keeps K file_op -> stays K (call3 file_op path content).
Proof.
  intros Hop. destruct file_op; try apply stays_raise.
  intros o w HK. specialize (Hop path content o w HK). simpl.
  unfold opts_of, world_of, calls_of, out_opts, out_world in *.
  destruct (run_op op path content o w) as [[r o1] w1]. simpl in *.
  split; [exact Hop|]. constructor; [|constructor]. now exists w.
Qed.

Lemma stays_bind_lift {A B} (r : Exc A) (k : A -> M B) :
  match r with
  | Ok a => stays K (k a)
  | Raise _ => True
  end ->
  stays K (bind (lift r) k).
Proof.
  destruct r as [a|e]; intros Hk o w HK.
  - specialize (Hk o w HK). unfold bind, lift.
    destruct (k a o w) as [[[r o2] w2] t2]. exact Hk.
  - split; [exact HK | constructor].
Qed.

Lemma stays_visit rec prefix name node changed o0 w0 :
  K o0 w0 ->
  (forall p, Forall (leaf_keeps K) (leaves_of node) -> stays K (rec node p)) ->
  Forall (leaf_keeps K) (leaves_of node) ->
  stays K (visit rec (flag_of o0) (get o0 "pretend") prefix name node changed).
Proof.
  intros HK0 Hrec Hleaves. unfold visit.
  apply stays_bind; [apply stays_lift|]. intros path.
  destruct node as [items|leaf].
  - apply stays_bind; [exact (stays_mkdir _ o0 w0 HK0)|]. intros _.
    apply stays_bind; [now apply Hrec|]. intros r. apply stays_ret.
  - apply stays_bind_lift.
    simpl in Hleaves. unfold leaf_parts in Hleaves.
    destruct (unpack2 (structure_leaf leaf)) as [[template file_op]|e]; [|exact I].
    apply Forall_cons in Hleaves as [[Hr Hop] _]. simpl in Hr, Hop.
    apply stays_bind; [now apply stays_reify|]. intros content.
    apply stays_bind; [now apply stays_call3|].
    intros [|]; apply stays_ret.
Qed.

Lemma stays_for_items rec prefix items o0 w0 :
  K o0 w0 ->
  Forall (fun kn => forall p, Forall (leaf_keeps K) (leaves_of (snd kn)) ->
                              stays K (rec (snd kn) p)) items ->
  Forall (leaf_keeps K) (leaves_of (NDict items)) ->
  forall changed,
    stays K (for_items rec (flag_of o0) (get o0 "pretend") prefix items changed).
Proof.
  intros HK0 Hall. induction Hall as [|[name node] rest Hnode _ IH];
    intros Hleaves changed; simpl.
  - apply stays_ret.
  - change (leaves_of (NDict ((name, node) :: rest)))
      with (leaves_of node ++ leaves_of (NDict rest)) in Hleaves.
    apply Forall_app in Hleaves as [Hl1 Hl2].
    apply stays_bind; [|now apply IH].
    apply (stays_visit _ _ _ _ _ o0 w0 HK0); [exact Hnode | exact Hl1].
Qed.

Lemma create_structure_node_keeps_state (n : Node) : keeps_state K n.
Proof.
  induction n as [leaf|items IH] using Node_induction;
    intros prefix Hleaves; simpl;
    apply stays_the_opts; intros o0 w0 HK0 o w -> HK;
    (match goal with
     | |- context [bind ?m ?k o0 w] =>
         apply (stays_bind m k); [| | exact HK]
     end;
     [ destruct prefix;
       [ apply stays_ret
       | apply stays_bind;
         [ exact (stays_mkdir _ o0 w0 HK0) | intros _; apply stays_ret ] ]
     | intros p; apply stays_bind; [apply stays_lift|]; intros root ]).
  - apply stays_raise.
  - apply stays_bind.
    + now apply (stays_for_items _ _ _ o0 w0 HK0).
    + intros c. apply stays_the_opts. intros o1 w1 HK1 o2 w2 -> HK2.
      split; [exact HK2 | constructor].
Qed.
End States.

(** ** The calls to [create_directory] *)

Section DirectoryCalls.
Context `{Collaborators}.

Lemma for_items_creates_dirs update pretend prefix items :
  Forall (fun kn => creates_dirs (snd kn)) items ->
  forall changed o w final o' w' t,
    for_items create_structure_node update pretend prefix items changed o w
    = (Ok final, o', w', t) ->
    mkdir_paths t = map PPath (dir_paths (NDict items) prefix).
Proof.
  induction 1 as [|[name node] rest Hnode _ IH];
    intros changed o w final o' w' t Hf.
  - apply ret_inv in Hf as (_ & _ & _ & ->). reflexivity.
  - apply for_items_cons_ok in Hf as (c1 & o1 & w1 & t1 & t2 & Hv & Hf & ->).
    unfold mkdir_paths. rewrite omap_app. fold (mkdir_paths t1) (mkdir_paths t2).
    rewrite (IH _ _ _ _ _ _ _ Hf).
    change (dir_paths (NDict ((name, node) :: rest)) prefix)
      with (match name, node with
            | OStr file, NDict _ =>
                joinpath prefix file :: dir_paths node (joinpath prefix file)
            | _, _ => []
            end ++ dir_paths (NDict rest) prefix).
    rewrite map_app. f_equal.
    apply visit_ok in Hv as (file & -> & Hv).
    destruct node as [items|leaf].
    + destruct Hv as (? & sub & ro & t3 & _ & Hrec & -> & _).
      destruct (Hnode _ _ _ _ _ _ _ _ Hrec) as (root & Hroot & Hd).
      injection Hroot as <-. simpl in Hd.
      change (mkdir_paths (EvMkdir (PPath (joinpath prefix file)) update pretend :: t3))
        with (PPath (joinpath prefix file) :: mkdir_paths t3).
      now rewrite Hd.
    + destruct Hv as (? & ? & ? & ? & ? & ? & _ & _ & _ & -> & _). reflexivity.
Qed.

Lemma create_structure_node_creates_dirs (n : Node) : creates_dirs n.
Proof.
  induction n as [leaf|items IH] using Node_induction;
    intros prefix o w changed ro o' w' t Hc.
  - apply create_structure_node_ok in Hc as (items & ? & ? & ? & Hi & _).
    discriminate Hi.
  - apply create_structure_node_ok in Hc
      as (items' & root & w1 & t1 & Hi & Hroot & Hf & _ & _ & ->).
    injection Hi as <-. exists root. split; [exact Hroot|].
    now apply (for_items_creates_dirs _ _ _ _ IH _ _ _ _ _ _ _ Hf).
Qed.

Lemma from_state_flags (flag : OptVal) (calls : list Event) :
  Forall (from_state (fun o _ => flag_of o = flag)) calls ->
  Forall (fun update => update = flag) (mkdir_flags calls).
Proof.
  induction 1 as [|ev calls Hev _ IH]; [constructor|].
  unfold mkdir_flags in *. destruct ev; simpl; [|assumption].
  constructor; [|assumption].
  destruct Hev as (o & w & Ho & -> & _). exact Ho.
Qed.
End DirectoryCalls.

(** C9, corrected: each call of [create_structure], the outermost and
    the nested ones, reads [update or force] from the options dict when it
    starts and passes it to the [create_directory] calls it makes itself.
    When the contents and the file operations of the tree leave
    [update or force] of the dict as it is, every [create_directory] call
    of the run, for the root and for every nested directory, finished or
    aborted, gets the same flag, [update or force] of the options given;
    and a walk that ends has called [create_directory] for the root (when
    no prefix was given) and for every directory of the tree, in the
    order of the walk. *)
Theorem every_directory_gets_the_flag `{Collaborators}
    (struct : Structure) (opts : Opts) (prefix : option PathArg) (w : World) :
  let flag := py_or (get opts "update") (get opts "force") in
  let run := create_structure struct opts prefix w in
  Forall (leaf_keeps (fun o _ => flag_of o = flag)) (leaves_of (NDict struct)) ->
  Forall (fun update => update = flag) (mkdir_flags (calls_of run))
  /\ truthy flag = truthy (get opts "update") || truthy (get opts "force")
  /\ (forall result,
        result_of run = Ok result ->
        exists root,
          Path_ (root_arg opts prefix) = Ok root
          /\ mkdir_paths (calls_of run)
             = match prefix with
               | None => [root_arg opts prefix]
               | Some _ => []
               end ++ map PPath (dir_paths (NDict struct) root)).
Proof.
  intros flag run Hleaves. split; [|split].
  - apply from_state_flags.
    apply (create_structure_node_keeps_state (fun o _ => flag_of o = flag));
      [ | exact Hleaves | reflexivity].
    intros path o0 w0 o w1 _ Ho. exact Ho.
  - apply truthy_py_or.
  - intros [changed ro] Hr. subst run. unfold create_structure in *.
    destruct (create_structure_node (NDict struct) prefix opts w)
      as [[[r o'] w'] t] eqn:Hc.
    change (r = Ok (changed, ro)) in Hr. subst r.
    change (calls_of (Ok (changed, ro), o', w', t)) with t.
    apply create_structure_node_ok in Hc
      as (items & root & w1 & t1 & Hi & Hroot & Hf & _ & Hp).
    injection Hi as <-. exists root. split; [exact Hroot|].
    assert (Hall : Forall (fun kn => creates_dirs (snd kn)) struct).
    { apply Forall_forall. intros kn _. apply create_structure_node_creates_dirs. }
    pose proof (for_items_creates_dirs _ _ _ _ Hall _ _ _ _ _ _ _ Hf) as Hd.
    destruct prefix as [p|]; destruct Hp as [_ ->].
    + exact Hd.
    + rewrite <- Hd. reflexivity.
Qed.

(** C9 as it was stated fails: on [{"a": set_force, "d": {"e": {}}}] and
    empty options, the root and [d] get the flag [None] of the options
    given, and [e], created by the nested call, gets [True]. *)
Lemma every_directory_gets_the_flag_counterexample :
  mkdir_flags (calls_of (create_structure forcing_structure ∅ None empty_disk))
  = [ONone; ONone; OBool true]
  /\ ~ Forall (fun update => update = py_or (get ∅ "update") (get ∅ "force"))
         (mkdir_flags
            (calls_of (create_structure forcing_structure ∅ None empty_disk))).
Proof.
  assert (Hflags :
    mkdir_flags (calls_of (create_structure forcing_structure ∅ None empty_disk))
    = [ONone; ONone; OBool true]) by (vm_compute; reflexivity).
  split; [exact Hflags|].
  rewrite Hflags. intros Hall.
  apply Forall_cons in Hall as [_ Hall].
  apply Forall_cons in Hall as [_ Hall].
  apply Forall_cons in Hall as [Hlast _].
  vm_compute in Hlast. discriminate Hlast.
Qed.

(** ** Leaves of no recognized shape *)

(** C5: no type error for a content of no recognized shape.  Whatever
    is not callable is reified without an exception, a template by
    substitution and anything else unchanged; [structure_leaf 42] is the
    pair of [42] and [create], [reify_content 42] is [42], and
    [create_structure] on the structures [{"x": 42}] (in a dry run) and
    [{"x": (42, op)}] returns the changed tree [{"x": 42}]. *)
Theorem unknown_content_is_not_rejected :
  (forall (P : Platform) (content : PyVal) (opts : Opts) (w : World),
     callable content = false ->
     exists v, reify_content content opts w = (Ok v, opts, w))
  /\ structure_leaf (VInt 42) = VTuple [VInt 42; VFileOp create]
  /\ reify_content (VInt 42) dry_run empty_disk
     = (Ok (VInt 42), dry_run, empty_disk)
  /\ result_of (create_structure odd_structure dry_run None empty_disk)
     = Ok (odd_structure, dry_run)
  /\ result_of (create_structure odd_pair_structure ∅ None empty_disk)
     = Ok (odd_structure, ∅).
Proof.
  split; [intros P; exact reify_content_not_callable|].
  repeat split; vm_compute; reflexivity.
Qed.

(** * Further properties of the walk *)

(** ** Files at any depth *)

Section DeepLeaves.
Context `{Collaborators}.

Lemma upto_split name rest before sub after :
  name ∉ keys before ->
  upto (name :: rest) (NDict (before ++ (name, sub) :: after))
  = NDict (before ++ match sub with
                     | NLeaf _ => []
                     | NDict _ => [(name, upto rest sub)]
                     end).
Proof.
  intros Hk. cbn [upto]. f_equal.
  induction before as [|[k n] tl IH]; cbn [app fst snd].
  - now rewrite decide_True.
  - rewrite decide_False.
    + f_equal. apply IH. intros Hin. apply Hk. now right.
    + intros ->. apply Hk. left.
Qed.

Lemma upto_dict names items : exists items', upto names (NDict items) = NDict items'.
Proof. destruct names; eexists; reflexivity. Qed.

Lemma create_structure_node_leaves (n : Node) : leaves_recorded n.
Proof.
  induction n as [leaf0|items IH] using Node_induction;
    intros prefix o w changed ro o' w' calls names leaf Hc Hu Hat.
  - apply create_structure_node_ok in Hc as (items & ? & ? & ? & Hi & _).
    discriminate Hi.
  - apply create_structure_node_ok in Hc
      as (items' & root & w1 & t1 & Hi & Hroot & Hf & -> & Hp).
    injection Hi as <-.
    assert (Hsub : forall ev, ev ∈ t1 -> ev ∈ calls).
    { intros ev Hev. destruct prefix; destruct Hp as [_ ->]; [exact Hev | now right]. }
    assert (Hp1 : match prefix with
                  | None =>
                      create_directory (root_arg o prefix) (flag_of o)
                        (get o "pretend") w = (Ok tt, w1)
                  | Some _ => w1 = w
                  end)
      by (destruct prefix; exact (proj1 Hp)).
    simpl in Hu. apply andb_true_iff in Hu as [Hnd Hu].
    apply bool_decide_eq_true in Hnd.
    destruct names as [|name rest]; [discriminate Hat|].
    simpl in Hat. destruct (dict_get name items) as [sub|] eqn:Hg; [|discriminate Hat].
    apply dict_get_Some_elem in Hg.
    destruct sub as [sub_items|leaf1].
    + destruct (for_items_dir _ _ _ _ _ _ _ _ _ _ _ _ _ _ Hf Hnd Hg)
        as (before & after & c0 & t0 & file & oa & wa & wd & ob & wb
            & sub_changed & ro' & t2
            & Hs & Hb & -> & Hd & Hrec & Hin & Hget).
      rewrite Forall_forall in IH.
      rewrite forallb_forall in Hu.
      pose proof (Hu _ (proj1 (list_elem_of_In _ _) Hg)) as Hu'.
      destruct (IH _ Hg _ _ _ _ _ _ _ _ _ _ Hrec Hu' Hat)
        as (root' & path & template & op & content & b
            & o1 & w1' & o2 & w2 & o3 & w3
            & Hroot' & Hdesc & Hl & (c1 & t3 & Hupto) & Hr & Hop & Hev & Hnode).
      injection Hroot' as <-.
      exists root, path, template, op, content, b, o1, w1', o2, w2, o3, w3.
      split; [assumption|]. split; [assumption|]. split; [assumption|].
      split.
      { subst items.
        rewrite (upto_split _ rest before (NDict sub_items) after
                   (keys_split_fresh _ _ _ _ Hnd)).
        cbn [snd] in Hupto.
        destruct (upto_dict rest sub_items) as [cut Hcut].
        rewrite Hcut in Hupto |- *.
        eexists _, _.
        apply (create_structure_node_build _ prefix o w root w1);
          [exact Hroot | exact Hp1 |].
        eapply for_items_snoc; [exact Hb|].
        eapply visit_dir_ok; [exact Hd | exact Hupto]. }
      repeat split; try assumption.
      * now apply Hsub, Hin.
      * simpl. now rewrite Hget.
    + destruct rest as [|name' rest]; [|discriminate Hat].
      injection Hat as <-.
      destruct (for_items_leaf _ _ _ _ _ _ _ _ _ _ _ _ _ _ Hf Hnd Hg)
        as (before & after & c0 & t0 & file & template & op & content & b
            & oa & wa & ob & wb & oc & wc
            & Hs & Hb & -> & Hl & Hr & Hop & Hev & Hget).
      exists root, (joinpath root file), template, op, content, b,
        oa, wa, ob, wb, oc, wc.
      split; [assumption|]. split; [reflexivity|]. split; [assumption|].
      split.
      { subst items.
        rewrite (upto_split _ [] before (NLeaf leaf1) after
                   (keys_split_fresh _ _ _ _ Hnd)).
        rewrite app_nil_r. eexists _, _.
        apply (create_structure_node_build _ prefix o w root w1);
          [exact Hroot | exact Hp1 | exact Hb]. }
      repeat split; try assumption.
      * now apply Hsub.
      * simpl. rewrite Hget. now destruct b.
Qed.

(** X1: in a successful walk of a tree with unique keys, the file at the
    end of any path of names, however deep, had its content reified on
    the options dict and the file system as the walk of what comes before
    the file left them, and its operation called at
    [prefix / name1 / ... / namen] with that content and the dict as the
    reification left it; the changed tree has the content at the same
    path of names when the operation returned true, and nothing there
    when it returned false. *)
Theorem create_structure_deep_leaf (struct : Structure) (opts : Opts)
    (prefix : option PathArg) (w : World) (changed : Structure)
    (opts' o' : Opts) (w' : World) (calls : list Event)
    (names : list Key) (leaf : PyVal) :
  create_structure struct opts prefix w = (Ok (changed, opts'), o', w', calls) ->
  uniq_keys (NDict struct) = true ->
  node_at names (NDict struct) = Some (NLeaf leaf) ->
  exists root path template op content b o1 w1 o2 w2 o3 w3,
    Path_ (root_arg opts prefix) = Ok root
    /\ descend root names = Ok path
    /\ structure_leaf leaf = VTuple [template; VFileOp op]
    /\ (exists changed0 calls0,
          create_structure_node (upto names (NDict struct)) prefix opts w
          = (Ok (changed0, o1), o1, w1, calls0))
    /\ reify_content template o1 w1 = (Ok content, o2, w2)
    /\ run_op op path content o2 w2 = (Ok b, o3, w3)
    /\ EvFileOp op path content o2 (Ok b) ∈ calls
    /\ node_at names (NDict changed) = if b then Some (NLeaf content) else None.
Proof.
  intros Hc Hu Hat. unfold create_structure in Hc.
  exact (create_structure_node_leaves (NDict struct) prefix opts w changed
           opts' o' w' calls names leaf Hc Hu Hat).
Qed.
End DeepLeaves.

(** ** The order of the changed tree *)

Section ChangedOrder.
Context `{Collaborators}.

Lemma keys_dict_set_new {V} (k : Key) (v : V) (d : list (Key * V)) :
  k ∉ keys d -> keys (dict_set k v d) = keys d ++ [k].
Proof.
  induction d as [|[k' v'] d IH]; simpl; intros Hk; [reflexivity|].
  apply not_elem_of_cons in Hk as [Hne Hk].
  rewrite decide_False by exact Hne. simpl. now rewrite IH.
Qed.

Lemma for_items_keys rec update pretend prefix items :
  forall changed o w final o' w' t,
    for_items rec update pretend prefix items changed o w
    = (Ok final, o', w', t) ->
    NoDup (keys items) ->
    (forall k, k ∈ keys items -> k ∉ keys changed) ->
    keys final
    = keys changed ++ List.filter (fun k => has_key k final) (keys items).
Proof.
  induction items as [|[name node] rest IH];
    intros changed o w final o' w' t Hf Hnd Hfresh.
  - apply ret_inv in Hf as (Hf & _). injection Hf as ->.
    simpl. now rewrite app_nil_r.
  - apply for_items_cons_ok in Hf as (c1 & o1 & w1 & t1 & t2 & Hv & Hf & ->).
    simpl in Hnd. apply NoDup_cons in Hnd as [Hk Hnd].
    assert (Hname : name ∉ keys changed) by (apply Hfresh; left).
    pose proof (for_items_other _ _ _ _ _ _ _ _ _ _ _ _ name Hf Hk) as Hsame.
    assert (Hfresh1 : forall k, k ∈ keys rest -> k ∉ keys c1).
    { intros k Hin. apply dict_get_None.
      rewrite (visit_other _ _ _ _ _ _ _ _ _ _ _ _ _ k Hv).
      - apply dict_get_None, Hfresh. now right.
      - intros ->. now apply Hk. }
    rewrite (IH _ _ _ _ _ _ _ Hf Hnd Hfresh1).
    change (keys ((name, node) :: rest)) with (name :: keys rest).
    cbn [List.filter]. unfold has_key at 2. rewrite Hsame.
    destruct (visit_changed _ _ _ _ _ _ _ _ _ _ _ _ _ Hv) as [->|[entry ->]].
    + apply dict_get_None in Hname. now rewrite Hname.
    + rewrite dict_get_set_eq, keys_dict_set_new by exact Hname.
      now rewrite <- app_assoc.
Qed.

(** X2: the changed tree of a successful walk lists its entries in the
    iteration order of the input: its keys are the keys of the input that
    it has, in the same order. *)
Theorem changed_keys_in_order (struct : Structure) (opts : Opts)
    (prefix : option PathArg) (w : World) (changed : Structure)
    (opts' o' : Opts) (w' : World) (calls : list Event) :
  create_structure struct opts prefix w = (Ok (changed, opts'), o', w', calls) ->
  NoDup (keys struct) ->
  keys changed = List.filter (fun k => has_key k changed) (keys struct).
Proof.
  intros Hc Hnd. unfold create_structure in Hc.
  apply create_structure_node_ok in Hc
    as (items & root & w1 & t1 & Hi & _ & Hf & _ & _).
  injection Hi as <-.
  apply (for_items_keys _ _ _ _ _ _ _ _ _ _ _ _ Hf Hnd).
  intros k _. apply not_elem_of_nil.
Qed.
End ChangedOrder.

(** ** The order of the calls *)

Section CallOrder.
Context `{Collaborators}.

Lemma for_items_follows_plan update pretend prefix items :
  Forall (fun kn => follows_plan (snd kn)) items ->
  forall changed o w final o' w' t,
    for_items create_structure_node update pretend prefix items changed o w
    = (Ok final, o', w', t) ->
    steps t = plan (NDict items) prefix.
Proof.
  induction 1 as [|[name node] rest Hnode _ IH];
    intros changed o w final o' w' t Hf.
  - apply ret_inv in Hf as (_ & _ & _ & ->). reflexivity.
  - apply for_items_cons_ok in Hf as (c1 & o1 & w1 & t1 & t2 & Hv & Hf & ->).
    unfold steps. rewrite map_app. fold (steps t1) (steps t2).
    rewrite (IH _ _ _ _ _ _ _ Hf).
    change (plan (NDict ((name, node) :: rest)) prefix)
      with (match name with
            | OStr file =>
                match node with
                | NDict _ =>
                    StepMkdir (PPath (joinpath prefix file))
                    :: plan node (joinpath prefix file)
                | NLeaf _ => [StepFileOp (joinpath prefix file)]
                end
            | _ => []
            end ++ plan (NDict rest) prefix).
    f_equal.
    apply visit_ok in Hv as (file & -> & Hv).
    destruct node as [items|leaf].
    + destruct Hv as (? & sub & ro & t3 & _ & Hrec & -> & _).
      destruct (Hnode _ _ _ _ _ _ _ _ Hrec) as (root & Hroot & Hd).
      injection Hroot as <-. simpl in Hd.
      change (steps (EvMkdir (PPath (joinpath prefix file)) update pretend :: t3))
        with (StepMkdir (PPath (joinpath prefix file)) :: steps t3).
      now rewrite Hd.
    + destruct Hv as (? & ? & ? & ? & ? & ? & _ & _ & _ & -> & _). reflexivity.
Qed.

Lemma create_structure_node_follows_plan (n : Node) : follows_plan n.
Proof.
  induction n as [leaf|items IH] using Node_induction;
    intros prefix o w changed ro o' w' t Hc.
  - apply create_structure_node_ok in Hc as (items & ? & ? & ? & Hi & _).
    discriminate Hi.
  - apply create_structure_node_ok in Hc
      as (items' & root & w1 & t1 & Hi & Hroot & Hf & _ & _ & ->).
    injection Hi as <-. exists root. split; [exact Hroot|].
    now apply (for_items_follows_plan _ _ _ _ IH _ _ _ _ _ _ _ Hf).
Qed.

(** X3: the calls of a successful walk, in order, are the plan read off
    the tree: the root directory first when no prefix was given, then for
    each entry in iteration order either its directory followed by the
    calls for what is below it, or the one call of its file operation.
    Every file has its operation called once, after the directories
    above it were created. *)
Theorem calls_follow_plan (struct : Structure) (opts : Opts)
    (prefix : option PathArg) (w : World) (changed : Structure)
    (opts' o' : Opts) (w' : World) (calls : list Event) :
  create_structure struct opts prefix w = (Ok (changed, opts'), o', w', calls) ->
  exists root,
    Path_ (root_arg opts prefix) = Ok root
    /\ steps calls
       = match prefix with
         | None => [StepMkdir (root_arg opts prefix)]
         | Some _ => []
         end ++ plan (NDict struct) root.
Proof.
  intros Hc. unfold create_structure in Hc.
  apply create_structure_node_ok in Hc
    as (items & root & w1 & t1 & Hi & Hroot & Hf & _ & Hp).
  injection Hi as <-. exists root. split; [exact Hroot|].
  assert (Hall : Forall (fun kn => follows_plan (snd kn)) struct).
  { apply Forall_forall. intros kn _. apply create_structure_node_follows_plan. }
  pose proof (for_items_follows_plan _ _ _ _ Hall _ _ _ _ _ _ _ Hf) as Hd.
  destruct prefix as [p|]; destruct Hp as [_ ->].
  - exact Hd.
  - rewrite <- Hd. reflexivity.
Qed.
End CallOrder.

(** ** Properties of every run, finished or aborted *)

Section EveryRun.
Context `{Collaborators}.

Lemma strict_ret {A} (a : A) : strict (ret a).
Proof. intros o w. left. constructor. Qed.

Lemma strict_raise {A} (e : PyExc) : strict (raise (A := A) e).
Proof. intros o w. left. constructor. Qed.

Lemma strict_lift {A} (r : Exc A) : strict (lift r).
Proof. intros o w. left. constructor. Qed.

Lemma strict_the_opts : strict the_opts.
Proof. intros o w. left. constructor. Qed.

Lemma strict_bind {A B} (m : M A) (k : A -> M B) :
  strict m -> (forall a, strict (k a)) -> strict (bind m k).
Proof.
  intros Hm Hk o w. specialize (Hm o w). unfold bind.
  destruct (m o w) as [[[[a|e] o1] w1] t1].
  - specialize (Hk a o1 w1). destruct (k a o1 w1) as [[[r o2] w2] t2].
    unfold result_of, calls_of in *. simpl in *.
    assert (Ht1 : Forall returned t1).
    { destruct Hm as [Hm|(? & ? & ? & _ & _ & _ & Hr)]; [exact Hm | discriminate Hr]. }
    destruct Hk as [Hk|(before & ev & e & -> & Hb & Hev & ->)].
    + left. apply Forall_app. now split.
    + right. exists (t1 ++ before), ev, e.
      rewrite app_assoc. repeat split; try assumption.
      apply Forall_app. now split.
  - unfold result_of, calls_of in *. simpl in *.
    destruct Hm as [Hm|(before & ev & e' & -> & Hb & Hev & Hr)].
    + now left.
    + right. injection Hr as ->. exists before, ev, e'. now repeat split.
Qed.

Lemma strict_mkdir path update pretend :
  strict (call_create_directory path update pretend).
Proof.
  intros o w. left. rewrite call_create_directory_calls.
  constructor; [reflexivity | constructor].
Qed.

Lemma strict_reify template : strict (call_reify template).
Proof.
  intros o w. left. unfold call_reify, calls_of.
  destruct (reify_content template o w) as [[r o1] w1]. constructor.
Qed.

Lemma strict_call3 file_op path content : strict (call3 file_op path content).
Proof.
  destruct file_op; try apply strict_raise.
  intros o w. simpl. unfold result_of, calls_of.
  destruct (run_op op path content o w) as [[[b|e] o1] w1]; simpl.
  - left. constructor; [reflexivity | constructor].
  - right. exists [], (EvFileOp op path content o (Raise e)), e.
    repeat split. constructor.
Qed.

Lemma strict_visit rec update pretend prefix name node changed :
  (forall p, strict (rec node p)) ->
  strict (visit rec update pretend prefix name node changed).
Proof.
  intros Hrec. unfold visit.
  apply strict_bind; [apply strict_lift|]. intros path.
  destruct node as [items|leaf].
  - apply strict_bind; [apply strict_mkdir|]. intros _.
    apply strict_bind; [apply Hrec|]. intros r. apply strict_ret.
  - apply strict_bind; [apply strict_lift|]. intros [template file_op].
    apply strict_bind; [apply strict_reify|]. intros content.
    apply strict_bind; [apply strict_call3|].
    intros [|]; apply strict_ret.
Qed.

Lemma strict_for_items rec update pretend prefix items :
  Forall (fun kn => forall p, strict (rec (snd kn) p)) items ->
  forall changed, strict (for_items rec update pretend prefix items changed).
Proof.
  induction 1 as [|[name node] rest Hnode _ IH]; intros changed; simpl.
  - apply strict_ret.
  - apply strict_bind; [now apply strict_visit | apply IH].
Qed.

Lemma strict_create_structure_node (n : Node) :
  forall p, strict (create_structure_node n p).
Proof.
  induction n as [leaf|items IH] using Node_induction; intros p; simpl;
    (apply strict_bind; [apply strict_the_opts|]; intros opts;
     apply strict_bind;
     [ destruct p;
       [ apply strict_ret
       | apply strict_bind; [apply strict_mkdir | intros _; apply strict_ret] ]
     | intros prefix; apply strict_bind; [apply strict_lift|]; intros root ]).
  - apply strict_raise.
  - apply strict_bind; [now apply strict_for_items|]. intros c.
    apply strict_bind; [apply strict_the_opts|]. intros o. apply strict_ret.
Qed.

(** X4: [create_structure] does not catch what a file operation raises.
    When it returns, every file operation it called returned; when a file
    operation raises, that call is the last one made and
    [create_structure] raises the same exception. *)
Theorem file_op_exception_aborts (struct : Structure) (opts : Opts)
    (prefix : option PathArg) (w : World) :
  let run := create_structure struct opts prefix w in
  (forall result, result_of run = Ok result -> Forall returned (calls_of run))
  /\ (forall ev e,
        ev ∈ calls_of run -> raised ev = Some e ->
        result_of run = Raise e /\ last (calls_of run) = Some ev).
Proof.
  intros run.
  assert (Hs : aborts_on_raise (result_of run) (calls_of run))
    by apply strict_create_structure_node.
  destruct Hs as [Hall|(before & ev' & e' & Hc & Hb & Hev' & Hr)].
  - split; [intros _ _; exact Hall|].
    intros ev e Hin Hev. rewrite Forall_forall in Hall.
    specialize (Hall ev Hin). unfold returned in Hall. congruence.
  - split; [intros result Hres; congruence|].
    intros ev e Hin Hev. rewrite Hc in Hin |- *.
    apply elem_of_app in Hin as [Hin|Hin].
    + rewrite Forall_forall in Hb. specialize (Hb ev Hin).
      unfold returned in Hb. congruence.
    + apply list_elem_of_singleton in Hin as ->.
      rewrite last_snoc. split; [congruence | reflexivity].
Qed.

(** X5: [create_structure] touches the file system and the options dict
    only through its collaborators and the contents it calls.  A property
    of the dict and the file system together that the contents and the
    file operations of the tree keep, and that [create_directory] keeps
    when called with flags read from a dict that has it, still holds
    after the walk, whether it returned or raised. *)
Theorem file_system_invariant_kept (K : Opts -> World -> Prop)
    (struct : Structure) (opts : Opts) (prefix : option PathArg) (w : World) :
  mkdir_keeps K ->
  Forall (leaf_keeps K) (leaves_of (NDict struct)) ->
  K opts w ->
  K (opts_of (create_structure struct opts prefix w))
    (world_of (create_structure struct opts prefix w)).
Proof.
  intros Hd Hleaves HK.
  exact (proj1 (create_structure_node_keeps_state K Hd (NDict struct) prefix
                  Hleaves opts w HK)).
Qed.

(** X6: every call of a run, finished or aborted, is made on the options
    dict as it is at that moment.  For a property of the dict that the
    contents and the file operations of the tree keep, and that the
    options given have: every file operation is handed a dict that has
    it, and every [create_directory] gets [update or force] and [pretend]
    as read from a dict that has it, at every depth. *)
Theorem every_call_gets_the_options (J : Opts -> Prop) (struct : Structure)
    (opts : Opts) (prefix : option PathArg) (w : World) :
  Forall (leaf_keeps (fun o _ => J o)) (leaves_of (NDict struct)) ->
  J opts ->
  Forall
    (fun ev =>
       match ev with
       | EvMkdir _ update pretend =>
           exists o, J o /\ update = flag_of o /\ pretend = get o "pretend"
       | EvFileOp _ _ _ o _ => J o
       end)
    (calls_of (create_structure struct opts prefix w)).
Proof.
  intros Hleaves HJ.
  assert (Hd : mkdir_keeps (fun o _ => J o))
    by (intros path o0 w0 o w1 _ Ho; exact Ho).
  pose proof (proj2 (create_structure_node_keeps_state (fun o _ => J o) Hd
                       (NDict struct) prefix Hleaves opts w HJ)) as Hcalls.
  eapply Forall_impl; [exact Hcalls|].
  intros [path update pretend|op path content o r]; simpl.
  - intros (o & _ & Ho & Hu & Hp). now exists o.
  - intros [_ Ho]. exact Ho.
Qed.
End EveryRun.

(** ** When the walk returns *)

Section Returns.
Context `{Collaborators}.
Variable K : Opts -> World -> Prop.
Hypothesis K_mkdir : mkdir_returns K.

Lemma leaf_shaped_inv leaf :
  leaf_shaped leaf = true ->
  exists template op,
    unpack2 (structure_leaf leaf) = Ok (template, VFileOp op).
Proof.
  unfold leaf_shaped.
  destruct (unpack2 (structure_leaf leaf)) as [[template f]|]; [|discriminate].
  destruct f; try discriminate. intros _. now exists template, op.
Qed.

Lemma visit_returns prefix update pretend file node changed o w :
  returns_when_shaped K node ->
  Forall (leaf_returns K) (leaves_of node) ->
  shaped node = true ->
  K o w ->
  exists c1 o1 w1 t1,
    visit create_structure_node update pretend prefix (OStr file) node changed o w
    = (Ok c1, o1, w1, t1)
    /\ K o1 w1.
Proof.
  intros Hnode Hleaves Hshaped HK. unfold visit. destruct node as [sub|leaf].
  - destruct (K_mkdir (PPath (joinpath prefix file)) update pretend o w
                (joinpath prefix file) HK eq_refl) as (w1 & Hd & HK1).
    destruct (Hnode (Some (PPath (joinpath prefix file))) o w1
                (joinpath prefix file) Hleaves Hshaped eq_refl eq_refl HK1)
      as (sub_changed & o2 & w2 & t2 & Hrec & HK2).
    eexists _, _, _, _. split; [|exact HK2].
    eapply bind_ok; [reflexivity|].
    eapply bind_ok.
    { unfold call_create_directory. now rewrite Hd. }
    eapply bind_ok; [exact Hrec | reflexivity].
  - destruct (leaf_shaped_inv _ Hshaped) as (template & op & Hu).
    simpl in Hleaves. unfold leaf_parts in Hleaves. rewrite Hu in Hleaves.
    apply Forall_cons in Hleaves as [[Hr Hop] _]. simpl in Hr, Hop.
    destruct (Hr o w HK) as (content & o1 & w1 & Hreify & HK1).
    destruct (Hop (joinpath prefix file) content o1 w1 HK1)
      as (b & o2 & w2 & Hrun & HK2).
    destruct b; eexists _, _, _, _; (split; [|exact HK2]);
      (eapply bind_ok; [reflexivity|]);
      (eapply bind_ok; [unfold lift; now rewrite Hu|]);
      (eapply bind_ok; [unfold call_reify; now rewrite Hreify|]);
      (eapply bind_ok; [simpl; now rewrite Hrun|]);
      reflexivity.
Qed.

Lemma for_items_returns update pretend prefix items :
  Forall (fun kn => returns_when_shaped K (snd kn)) items ->
  Forall (leaf_returns K) (leaves_of (NDict items)) ->
  forallb (fun kn => is_str (fst kn) && shaped (snd kn)) items = true ->
  forall changed o w,
    K o w ->
    exists final o' w' t,
      for_items create_structure_node update pretend prefix items changed o w
      = (Ok final, o', w', t)
      /\ K o' w'.
Proof.
  intros Hall. induction Hall as [|[name node] rest Hnode _ IH];
    intros Hleaves Hs changed o w HK.
  - now exists changed, o, w, [].
  - simpl in Hs. apply andb_true_iff in Hs as [Hkn Hs].
    apply andb_true_iff in Hkn as [Hname Hnode_ok].
    destruct name as [| |file]; try discriminate Hname.
    change (leaves_of (NDict ((OStr file, node) :: rest)))
      with (leaves_of node ++ leaves_of (NDict rest)) in Hleaves.
    apply Forall_app in Hleaves as [Hl1 Hl2].
    destruct (visit_returns prefix update pretend file node changed o w
                Hnode Hl1 Hnode_ok HK) as (c1 & o1 & w1 & t1 & Hv & HK1).
    destruct (IH Hl2 Hs c1 o1 w1 HK1) as (final & o' & w' & t2 & Hf & HK').
    exists final, o', w', (t1 ++ t2). split; [|exact HK'].
    simpl. eapply bind_ok; eassumption.
Qed.

Lemma create_structure_node_returns (n : Node) : returns_when_shaped K n.
Proof.
  induction n as [leaf|items IH] using Node_induction;
    intros prefix o w root Hleaves Hs Hleaf Hroot HK; [discriminate Hleaf|].
  simpl in Hs.
  assert (Hp : exists w1 t1,
             match prefix with
             | Some prefix => ret prefix
             | None =>
                 bind (call_create_directory
                         (PRaw (get_default o "project_path" (OStr ".")))
                         (py_or (get o "update") (get o "force"))
                         (get o "pretend"))
                   (fun _ => ret (PRaw (get_default o "project_path" (OStr "."))))
             end o w = (Ok (root_arg o prefix), o, w1, t1) /\ K o w1).
  { destruct prefix as [p|]; [now exists w, []|].
    destruct (K_mkdir (root_arg o None)
                (py_or (get o "update") (get o "force"))
                (get o "pretend") o w root HK Hroot) as (w1 & Hd & HK1).
    eexists _, _. split; [|exact HK1].
    eapply bind_ok; [|reflexivity].
    unfold call_create_directory. simpl in Hd. now rewrite Hd. }
  destruct Hp as (w1 & t1 & Hp & HK1).
  destruct (for_items_returns (py_or (get o "update") (get o "force"))
              (get o "pretend") root items IH Hleaves Hs [] o w1 HK1)
    as (final & o' & w' & t2 & Hf & HK').
  eexists final, o', w', _. split; [|exact HK']. simpl.
  rewrite bind_the_opts.
  eapply bind_ok; [exact Hp|].
  eapply bind_ok; [unfold lift; now rewrite Hroot|].
  eapply bind_ok; [exact Hf|].
  rewrite bind_the_opts. reflexivity.
Qed.
End Returns.

Section ReturnsShaped.
Context `{Collaborators}.

Lemma for_items_shaped update pretend prefix items :
  Forall (fun kn => shaped_when_returns (snd kn)) items ->
  forall changed o w final o' w' t,
    for_items create_structure_node update pretend prefix items changed o w
    = (Ok final, o', w', t) ->
    forallb (fun kn => is_str (fst kn) && shaped (snd kn)) items = true.
Proof.
  induction 1 as [|[name node] rest Hnode _ IH];
    intros changed o w final o' w' t Hf.
  - reflexivity.
  - apply for_items_cons_ok in Hf as (c1 & o1 & w1 & t1 & t2 & Hv & Hf & ->).
    simpl. rewrite (IH _ _ _ _ _ _ _ Hf), andb_true_r.
    apply visit_ok in Hv as (file & -> & Hv). simpl.
    destruct node as [sub|leaf].
    + destruct Hv as (? & sub_changed & ro & ? & _ & Hrec & _).
      exact (Hnode _ _ _ _ _ _ _ _ Hrec).
    + destruct Hv as (template & op & content & b & ? & ? & Hl & _).
      simpl. unfold leaf_shaped. now rewrite Hl.
Qed.

Lemma create_structure_node_shaped (n : Node) : shaped_when_returns n.
Proof.
  induction n as [leaf|items IH] using Node_induction;
    intros prefix o w changed ro o' w' calls Hc;
    apply create_structure_node_ok in Hc
      as (items' & root & w1 & t1 & Hi & _ & Hf & _).
  - discriminate Hi.
  - injection Hi as <-. exact (for_items_shaped _ _ _ _ IH _ _ _ _ _ _ _ Hf).
Qed.

(** X7: when, in the states the walk can be in, [create_directory] and
    the contents and file operations of the tree return, then
    [create_structure] returns exactly when [Path] accepts the prefix (or
    the project path), every name at every depth is a string, and every
    leaf normalizes to a pair whose second half is a file operation.
    Nothing else in the walk can raise.  It returns the options dict as
    the walk left it. *)
Theorem create_structure_returns_iff (K : Opts -> World -> Prop)
    (struct : Structure) (opts : Opts) (prefix : option PathArg) (w : World) :
  mkdir_returns K ->
  Forall (leaf_returns K) (leaves_of (NDict struct)) ->
  K opts w ->
  (exists changed o' w' calls,
     create_structure struct opts prefix w = (Ok (changed, o'), o', w', calls))
  <-> (shaped (NDict struct) = true
       /\ exists root, Path_ (root_arg opts prefix) = Ok root).
Proof.
  intros Hd Hleaves HK. split.
  - intros (changed & o' & w' & calls & Hc). split.
    + exact (create_structure_node_shaped _ _ _ _ _ _ _ _ _ Hc).
    + apply create_structure_node_ok in Hc as (? & root & ? & ? & _ & Hroot & _).
      now exists root.
  - intros [Hs [root Hroot]].
    destruct (create_structure_node_returns K Hd (NDict struct) prefix opts w root
                Hleaves Hs eq_refl Hroot HK)
      as (changed & o' & w' & calls & Hc & _).
    now exists changed, o', w', calls.
Qed.
End ReturnsShaped.

(** ** Bare leaves and explicit pairs *)

Section Normalize.
Context `{Collaborators}.

Lemma structure_leaf_idempotent (contents : PyVal) :
  structure_leaf (structure_leaf contents) = structure_leaf contents.
Proof.
  unfold structure_leaf at 1. now rewrite structure_leaf_is_tuple.
Qed.

Lemma visit_normalize update pretend prefix name node changed o w :
  normalize_same node ->
  visit create_structure_node update pretend prefix name (normalize node)
    changed o w
  = visit create_structure_node update pretend prefix name node changed o w.
Proof.
  intros Hn. unfold visit. apply bind_ext; [reflexivity|]. intros path o1 w1.
  destruct node as [items|leaf].
  - change (normalize (NDict items))
      with (NDict (map (fun kn => (fst kn, normalize (snd kn))) items)).
    cbv beta iota.
    apply bind_ext; [reflexivity|]. intros _ o2 w2.
    apply bind_ext; [apply Hn | reflexivity].
  - simpl. now rewrite structure_leaf_idempotent.
Qed.

Lemma for_items_normalize update pretend prefix items :
  Forall (fun kn => normalize_same (snd kn)) items ->
  forall changed o w,
    for_items create_structure_node update pretend prefix
      (map (fun kn => (fst kn, normalize (snd kn))) items) changed o w
    = for_items create_structure_node update pretend prefix items changed o w.
Proof.
  induction 1 as [|[name node] rest Hnode _ IH]; intros changed o w; [reflexivity|].
  simpl. apply bind_ext; [now apply visit_normalize | exact IH].
Qed.

Lemma create_structure_node_normalize (n : Node) : normalize_same n.
Proof.
  induction n as [leaf|items IH] using Node_induction; intros prefix o w.
  - simpl. apply bind_ext; [reflexivity|]. intros opts o0 w0.
    apply bind_ext; [reflexivity|]. intros p o1 w1.
    apply bind_ext; reflexivity.
  - change (normalize (NDict items))
      with (NDict (map (fun kn => (fst kn, normalize (snd kn))) items)).
    simpl. apply bind_ext; [reflexivity|]. intros opts o0 w0.
    apply bind_ext; [reflexivity|]. intros p o1 w1.
    apply bind_ext; [reflexivity|]. intros root o2 w2.
    apply bind_ext; [now apply for_items_normalize | reflexivity].
Qed.

(** X8: leaving the operation out is the same as writing [create]: the
    tree in which every leaf, at every depth, is replaced by its
    normalized pair gives the same result, the same options dict, the
    same file system and the same calls as the tree itself. *)
Theorem bare_leaf_is_pair_with_create (struct : Structure) (opts : Opts)
    (prefix : option PathArg) (w : World) :
  create_structure (map (fun kn => (fst kn, normalize (snd kn))) struct)
    opts prefix w
  = create_structure struct opts prefix w.
Proof.
  unfold create_structure.
  exact (create_structure_node_normalize (NDict struct) prefix opts w).
Qed.
End Normalize.

(** ** Contents *)

Section Contents.
Context `{Platform}.
Import Template.

(** X9: what [reify_content] makes of a source that is not callable is
    final: reifying the result again, with any options, gives it back
    unchanged.  The contents recorded in a changed tree are of this kind
    when their sources are not callable. *)
Theorem reified_content_is_final (source content : PyVal)
    (opts opts' o1 : Opts) (w w' w1 : World) :
  callable source = false ->
  reify_content source opts w = (Ok content, o1, w1) ->
  reify_content content opts' w' = (Ok content, opts', w').
Proof.
  intros Hc Hr. unfold reify_content in Hr. rewrite Hc in Hr.
  destruct source; injection Hr as <- _ _; try reflexivity; discriminate Hc.
Qed.

Lemma render_agree (m1 m2 : Opts) (l : list Piece) :
  (forall id, id ∈ omap placeholder l -> m1 !! id = m2 !! id) ->
  map (render m1) l = map (render m2) l.
Proof.
  induction l as [|p l IH]; intros Hp; [reflexivity|].
  simpl. rewrite IH.
  - f_equal. destruct p as [c|[|id|id|]]; try reflexivity; simpl;
      rewrite (Hp id); try reflexivity; left.
  - intros id Hid. apply Hp. simpl. destruct (placeholder p); [right|]; assumption.
Qed.

(** X10: a template reads only the options it names: two option dicts
    that agree on the placeholders of the template give the same
    content. *)
Theorem template_reads_named_options (text : string) (opts1 opts2 : Opts)
    (w1 w2 : World) :
  (forall id, id ∈ placeholders text -> opts1 !! id = opts2 !! id) ->
  out_result (reify_content (VTemplate text None) opts1 w1)
  = out_result (reify_content (VTemplate text None) opts2 w2).
Proof.
  intros Hp. unfold reify_content, out_result. simpl. unfold safe_substitute.
  now rewrite (render_agree opts1 opts2 (pieces text) Hp).
Qed.
End Contents.

(** ** Results *)

Section Results.
Context `{Collaborators}.

(** X12: a call that returns gives back the options dict itself, as the
    walk left it: with the changes the contents and the file operations
    made to it, and so unchanged when they make none.  The changed tree
    has an entry for a name only if the structure has one; on the empty
    structure the call returns the empty tree and the options as given,
    and calls nothing but [create_directory] for the root. *)
Theorem create_structure_returns_options (struct : Structure) (opts : Opts)
    (prefix : option PathArg) (w : World) (changed : Structure)
    (opts' o' : Opts) (w' : World) (calls : list Event) :
  create_structure struct opts prefix w = (Ok (changed, opts'), o', w', calls) ->
  opts' = o'
  /\ (Forall (leaf_keeps (fun o _ => o = opts)) (leaves_of (NDict struct)) ->
      opts' = opts)
  /\ (forall name, has_key name changed = true -> name ∈ keys struct)
  /\ (struct = [] ->
      changed = []
      /\ opts' = opts
      /\ calls = match prefix with
                 | None =>
                     [EvMkdir (root_arg opts prefix)
                        (py_or (get opts "update") (get opts "force"))
                        (get opts "pretend")]
                 | Some _ => []
                 end).
Proof.
  intros Hc. unfold create_structure in Hc.
  pose proof Hc as Hrun.
  apply create_structure_node_ok in Hc
    as (items & root & w1 & t1 & Hi & Hroot & Hf & -> & Hp).
  injection Hi as <-. split; [reflexivity|]. split; [|split].
  - intros Hleaves.
    assert (Hd : mkdir_keeps (fun o (_ : World) => o = opts))
      by (intros path o0 w0 o w2 _ Ho; exact Ho).
    pose proof (proj1 (create_structure_node_keeps_state _ Hd (NDict struct)
                         prefix Hleaves opts w eq_refl)) as Hk.
    rewrite Hrun in Hk. exact Hk.
  - intros name Hk.
    assert (Hgen : forall items changed0 o0 w0 final o2 w2 t,
               for_items create_structure_node (flag_of opts)
                 (get opts "pretend") root items changed0 o0 w0
               = (Ok final, o2, w2, t) ->
               has_key name final = true ->
               has_key name changed0 = true \/ name ∈ keys items).
    { clear. induction items as [|[k n] rest IH];
        intros changed0 o0 w0 final o2 w2 t Hf Hk.
      - apply ret_inv in Hf as (Hf & _). injection Hf as ->. now left.
      - apply for_items_cons_ok in Hf as (c1 & o1 & w1 & t1 & t2 & Hv & Hf & ->).
        destruct (IH _ _ _ _ _ _ _ Hf Hk) as [Hc1|Hin]; [|right; now right].
        destruct (decide (name = k)) as [->|Hne]; [right; left|].
        left. unfold has_key in *.
        now rewrite <- (visit_other _ _ _ _ _ _ _ _ _ _ _ _ _ name Hv Hne). }
    destruct (Hgen _ _ _ _ _ _ _ _ Hf Hk) as [Hc|Hin];
      [discriminate Hc | exact Hin].
  - intros ->. apply ret_inv in Hf as (Hf & -> & -> & ->). injection Hf as ->.
    split; [reflexivity|]. split; [reflexivity|].
    destruct prefix; destruct Hp as [_ ->]; reflexivity.
Qed.
End Results.

(** ** Creating the default structure *)

Section DefaultWalk.
Context `{Pf : Platform} `{!Templates} `{!Collaborators}.

Lemma template_returns (K : Opts -> World -> Prop) (text : string) :
  reify_returns K (VTemplate text None).
Proof. intros o w HK. now exists (VStr (Template.safe_substitute text o)), o, w. Qed.

(** X11: the structure that [define_structure] returns has unique keys at
    every level, whatever the package.  When, in the states the walk can
    be in, [create_directory], the three operations and the three
    functions of the [templates] module return, [create_structure]
    creates it exactly when the ["package"] option is a string, and the
    changed tree then mirrors it. *)
Theorem default_structure_created_iff (K : Opts -> World -> Prop)
    (previous : Structure) (opts : Opts) (package : Key) (root : Path)
    (w : World) :
  mkdir_returns K ->
  op_returns K (VFileOp create) ->
  op_returns K (VFileOp NO_OVERWRITE) ->
  op_returns K (VFileOp SKIP_ON_UPDATE) ->
  reify_returns K (VFunc templates_init) ->
  reify_returns K (VFunc templates_license) ->
  reify_returns K (VFunc templates_setup_cfg) ->
  K opts w ->
  opts !! "package" = Some package ->
  Path_ (root_arg opts None) = Ok root ->
  exists struct,
    define_structure previous opts = Ok (struct, opts)
    /\ uniq_keys (NDict struct) = true
    /\ ((exists changed o' w' calls,
           create_structure struct opts None w
           = (Ok (changed, o'), o', w', calls)
           /\ mirrors (NDict struct) (NDict changed) = true)
        <-> is_str package = true).
Proof.
  intros Hd Hcreate Hno Hskip Hinit Hlicense Hcfg HK Hp Hroot.
  unfold define_structure, getitem. rewrite Hp.
  eexists. split; [reflexivity|].
  match goal with
  | |- uniq_keys (NDict ?s) = true /\ _ => set (struct := s)
  end.
  assert (Hu : uniq_keys (NDict struct) = true) by (vm_compute; reflexivity).
  assert (Hs : shaped (NDict struct) = is_str package)
    by (destruct package; reflexivity).
  assert (Hleaves : Forall (leaf_returns K) (leaves_of (NDict struct))).
  { unfold struct, with_op, template.
    cbn [leaves_of flat_map snd leaf_parts structure_leaf is_tuple unpack2 app].
    repeat (apply Forall_cons; split;
            [split; cbn [fst snd];
             first [apply template_returns | assumption]|]).
    apply Forall_nil_2. }
  split; [exact Hu|]. split.
  - intros (changed & o' & w' & calls & Hc & _). rewrite <- Hs.
    exact (create_structure_node_shaped _ _ _ _ _ _ _ _ _ Hc).
  - intros Hstr. rewrite Hstr in Hs.
    destruct (create_structure_node_returns K Hd (NDict struct) None opts w root
                Hleaves Hs eq_refl Hroot HK)
      as (changed & o' & w' & calls & Hc & _).
    exists changed, o', w', calls. split; [exact Hc|].
    exact (create_structure_node_mirrors _ _ _ _ _ _ _ _ _ Hc Hu).
Qed.
End DefaultWalk.

(** * The properties on concrete runs *)

(** ** The file system in memory *)

Lemma in_memory_create_opts path content opts w :
  out_opts (create_ path content opts w) = opts.
Proof.
  unfold create_. now destruct content; destruct (truthy (get opts "pretend")).
Defined.

Lemma in_memory_builtin_opts op path content opts w :
  op = create \/ op = NO_OVERWRITE \/ op = SKIP_ON_UPDATE ->
  out_opts (run_op op path content opts w) = opts.
Proof.
  intros [->|[->| ->]]; simpl.
  - apply in_memory_create_opts.
  - unfold no_overwrite_. destruct (exists_ path w);
      [reflexivity | apply in_memory_create_opts].
  - unfold skip_on_update_.
    destruct (truthy (get opts "update") && exists_ path w);
      [reflexivity | apply in_memory_create_opts].
Defined.

Lemma in_memory_builtin_returns op path content opts w :
  op = create \/ op = NO_OVERWRITE \/ op = SKIP_ON_UPDATE ->
  exists b w', run_op op path content opts w = (Ok b, opts, w').
Proof.
  assert (Hc : exists b w', create_ path content opts w = (Ok b, opts, w')).
  { unfold create_.
    destruct content; destruct (truthy (get opts "pretend")); eauto. }
  intros [->|[->| ->]]; simpl.
  - exact Hc.
  - unfold no_overwrite_. destruct (exists_ path w); eauto.
  - unfold skip_on_update_.
    destruct (truthy (get opts "update") && exists_ path w); eauto.
Defined.

Lemma in_memory_mkdir_returns (J : Opts -> Prop) :
  mkdir_returns (fun o _ => J o).
Proof.
  intros path update pretend o w root HJ Hroot. simpl.
  unfold create_directory_. rewrite Hroot.
  destruct (truthy pretend); eauto.
Defined.

Lemma in_memory_op_returns (J : Opts -> Prop) op :
  op = create \/ op = NO_OVERWRITE \/ op = SKIP_ON_UPDATE ->
  op_returns (fun o _ => J o) (VFileOp op).
Proof.
  intros Hop path content opts w HJ.
  destruct (in_memory_builtin_returns op path content opts w Hop)
    as (b & w' & Hrun).
  now exists b, opts, w'.
Defined.

Lemma in_memory_dry_create path content opts w :
  truthy (get opts "pretend") = true ->
  out_world (create_ path content opts w) = w.
Proof. intros Hp. unfold create_. rewrite Hp. now destruct content. Defined.

(** ** The scenario of the specification *)

Lemma scenario_keys : NoDup (keys scenario).
Proof. apply (bool_decide_unpack _). vm_compute. exact I. Defined.

Lemma scenario_uniq_keys : uniq_keys (NDict scenario) = true.
Proof. vm_compute. reflexivity. Defined.

Lemma scenario_rerun_run :
  create_structure scenario scenario_opts None edited_disk
  = (Ok (rerun_changed, scenario_opts), scenario_opts, rerun_disk, rerun_calls).
Proof. vm_compute. reflexivity. Defined.

Lemma create_structure_leaf_witness :
  create_structure scenario scenario_opts None edited_disk
  = (Ok (rerun_changed, scenario_opts), scenario_opts, rerun_disk, rerun_calls)
  /\ NoDup (keys scenario)
  /\ (OStr "a.txt", NLeaf (VTuple [VStr "hello"; VFileOp create])) ∈ scenario
  /\ exists root file template op content b o1 w1 o2 w2 o3 w3,
       Path_ (root_arg scenario_opts None) = Ok root
       /\ OStr "a.txt" = OStr file
       /\ structure_leaf (VTuple [VStr "hello"; VFileOp create])
          = VTuple [template; VFileOp op]
       /\ (exists before after changed0 calls0,
             scenario
             = before
               ++ (OStr "a.txt", NLeaf (VTuple [VStr "hello"; VFileOp create]))
                  :: after
             /\ create_structure before scenario_opts None edited_disk
                = (Ok (changed0, o1), o1, w1, calls0))
       /\ reify_content template o1 w1 = (Ok content, o2, w2)
       /\ run_op op (joinpath root file) content o2 w2 = (Ok b, o3, w3)
       /\ EvFileOp op (joinpath root file) content o2 (Ok b) ∈ rerun_calls
       /\ (dict_get (OStr "a.txt") rerun_changed = Some (NLeaf content)
           <-> b = true)
       /\ (b = false -> dict_get (OStr "a.txt") rerun_changed = None).
Proof.
  assert (Hin : (OStr "a.txt", NLeaf (VTuple [VStr "hello"; VFileOp create]))
                ∈ scenario) by left.
  split; [exact scenario_rerun_run|]. split; [exact scenario_keys|].
  split; [exact Hin|].
  exact (create_structure_leaf scenario scenario_opts None edited_disk
           rerun_changed scenario_opts scenario_opts rerun_disk rerun_calls
           (OStr "a.txt") _ scenario_rerun_run scenario_keys Hin).
Defined.

Lemma changed_tree_mirrors_input_witness :
  create_structure scenario scenario_opts None edited_disk
  = (Ok (rerun_changed, scenario_opts), scenario_opts, rerun_disk, rerun_calls)
  /\ uniq_keys (NDict scenario) = true
  /\ mirrors (NDict scenario) (NDict rerun_changed) = true
  /\ (forall name, name ∈ keys rerun_changed -> name ∈ keys scenario)
  /\ (forall name sub,
        dict_get name scenario = Some (NDict sub) ->
        exists sub',
          dict_get name rerun_changed = Some (NDict sub')
          /\ mirrors (NDict sub) (NDict sub') = true)
  /\ (forall name leaf v,
        dict_get name scenario = Some (NLeaf leaf) ->
        dict_get name rerun_changed = Some v -> is_leaf v = true).
Proof.
  split; [exact scenario_rerun_run|]. split; [exact scenario_uniq_keys|].
  exact (changed_tree_mirrors_input scenario scenario_opts None edited_disk
           rerun_changed scenario_opts scenario_opts rerun_disk rerun_calls
           scenario_rerun_run scenario_uniq_keys).
Defined.

Lemma default_structure_policies_witness :
  demo_opts !! "package" = Some (OStr "demo")
  /\ exists struct,
       define_structure [] demo_opts = Ok (struct, demo_opts)
       /\ map (fun path => (path, policy_at path struct)) (files_of (NDict struct))
          = default_policies (OStr "demo").
Proof.
  assert (Hp : demo_opts !! "package" = Some (OStr "demo"))
    by (vm_compute; reflexivity).
  split; [exact Hp|].
  exact (default_structure_policies [] demo_opts (OStr "demo") Hp).
Defined.

(** ** Options with [force] set, and a content that sets it again *)

Lemma forcing_keeps_flag :
  Forall (leaf_keeps (fun o (_ : @World platform) => flag_of o = OBool true))
    (leaves_of (NDict forcing_structure)).
Proof.
  apply Forall_cons. split; [|apply Forall_nil_2]. split.
  - intros o w Ho. cbn [fst].
    change (out_opts (reify_content set_force o w))
      with (<["force" := OBool true]> o).
    unfold flag_of, get in *.
    rewrite lookup_insert_ne by discriminate. rewrite lookup_insert_eq.
    unfold py_or in *. simpl.
    destruct (truthy (default ONone (o !! "update"))); [exact Ho | reflexivity].
  - intros path content o w Ho.
    rewrite in_memory_builtin_opts by now left. exact Ho.
Defined.

Lemma every_directory_gets_the_flag_witness :
  Forall (fun update => update = OBool true)
    (mkdir_flags
       (calls_of
          (create_structure forcing_structure {["force" := OBool true]} None
             empty_disk))).
Proof.
  exact (proj1 (every_directory_gets_the_flag forcing_structure
                  {["force" := OBool true]} None empty_disk forcing_keeps_flag)).
Defined.

(** ** The further properties on the scenario *)

Lemma create_structure_deep_leaf_witness :
  node_at [OStr "sub"; OStr "b.txt"] (NDict scenario)
  = Some (NLeaf (VTuple [VTemplate "${name}" None; VFileOp NO_OVERWRITE]))
  /\ exists root path template op content b o1 w1 o2 w2 o3 w3,
       Path_ (root_arg scenario_opts None) = Ok root
       /\ descend root [OStr "sub"; OStr "b.txt"] = Ok path
       /\ structure_leaf (VTuple [VTemplate "${name}" None; VFileOp NO_OVERWRITE])
          = VTuple [template; VFileOp op]
       /\ (exists changed0 calls0,
             create_structure_node
               (upto [OStr "sub"; OStr "b.txt"] (NDict scenario)) None
               scenario_opts edited_disk
             = (Ok (changed0, o1), o1, w1, calls0))
       /\ reify_content template o1 w1 = (Ok content, o2, w2)
       /\ run_op op path content o2 w2 = (Ok b, o3, w3)
       /\ EvFileOp op path content o2 (Ok b) ∈ rerun_calls
       /\ node_at [OStr "sub"; OStr "b.txt"] (NDict rerun_changed)
          = if b then Some (NLeaf content) else None.
Proof.
  assert (Hat : node_at [OStr "sub"; OStr "b.txt"] (NDict scenario)
                = Some (NLeaf (VTuple [VTemplate "${name}" None;
                                       VFileOp NO_OVERWRITE])))
    by (vm_compute; reflexivity).
  split; [exact Hat|].
  exact (create_structure_deep_leaf scenario scenario_opts None edited_disk
           rerun_changed scenario_opts scenario_opts rerun_disk rerun_calls _ _
           scenario_rerun_run scenario_uniq_keys Hat).
Defined.

Lemma changed_keys_in_order_witness :
  NoDup (keys scenario)
  /\ keys rerun_changed
     = List.filter (fun k => has_key k rerun_changed) (keys scenario).
Proof.
  split; [exact scenario_keys|].
  exact (changed_keys_in_order scenario scenario_opts None edited_disk
           rerun_changed scenario_opts scenario_opts rerun_disk rerun_calls
           scenario_rerun_run scenario_keys).
Defined.

Lemma calls_follow_plan_witness :
  exists root,
    Path_ (root_arg scenario_opts None) = Ok root
    /\ steps rerun_calls
       = [StepMkdir (root_arg scenario_opts None)] ++ plan (NDict scenario) root.
Proof.
  exact (calls_follow_plan scenario scenario_opts None edited_disk
           rerun_changed scenario_opts scenario_opts rerun_disk rerun_calls
           scenario_rerun_run).
Defined.

(** A dry run leaves the disk as it is and [pretend] set. *)
Lemma file_system_invariant_kept_witness :
  truthy (get (opts_of (create_structure scenario dry_run None empty_disk))
            "pretend") = true
  /\ world_of (create_structure scenario dry_run None empty_disk) = empty_disk.
Proof.
  apply (file_system_invariant_kept
           (fun o (d : @World platform) => truthy (get o "pretend") = true /\ d = empty_disk)
           scenario dry_run None empty_disk).
  - intros path o0 w0 o w1 [Hp0 _] [Hp ->]. split; [exact Hp|].
    simpl. unfold create_directory_. rewrite Hp0.
    now destruct (Path_ path).
  - repeat (apply Forall_cons; split); [| |apply Forall_nil_2].
    + split.
      * intros o w1 HK. exact HK.
      * intros path content o w1 [Hp ->]. split.
        -- rewrite in_memory_builtin_opts by now left. exact Hp.
        -- simpl. now apply in_memory_dry_create.
    + split.
      * intros o w1 HK. exact HK.
      * intros path content o w1 [Hp ->]. split.
        -- rewrite in_memory_builtin_opts by (right; now left). exact Hp.
        -- simpl. unfold no_overwrite_. destruct (exists_ path empty_disk);
             [reflexivity | now apply in_memory_dry_create].
  - split; reflexivity.
Defined.

(** A content that renames does not set [pretend]: no call of the run
    sees it set. *)
Lemma every_call_gets_the_options_witness :
  Forall
    (fun ev =>
       match ev with
       | EvMkdir _ update pretend =>
           exists o, o !! "pretend" = None
                     /\ update = flag_of o /\ pretend = get o "pretend"
       | EvFileOp _ _ _ o _ => o !! "pretend" = None
       end)
    (calls_of (create_structure renaming_structure ∅ None empty_disk)).
Proof.
  apply (every_call_gets_the_options (fun o => o !! "pretend" = None)
           renaming_structure ∅ None empty_disk); [|reflexivity].
  repeat (apply Forall_cons; split); [| |apply Forall_nil_2].
  - split.
    + intros o w Ho. cbn [fst].
      change (out_opts (reify_content rename o w))
        with (<["name" := OStr "Y"]> o).
      now rewrite lookup_insert_ne by discriminate.
    + intros path content o w Ho.
      rewrite in_memory_builtin_opts by now left. exact Ho.
  - split.
    + intros o w Ho. exact Ho.
    + intros path content o w Ho.
      rewrite in_memory_builtin_opts by now left. exact Ho.
Defined.

Lemma scenario_leaves_return :
  Forall (leaf_returns (fun _ (_ : @World platform) => True))
    (leaves_of (NDict scenario)).
Proof.
  repeat (apply Forall_cons; split); [| |apply Forall_nil_2];
    (split; [intros o w _; simpl; eauto|]);
    apply (in_memory_op_returns (fun _ => True)); auto.
Defined.

Lemma create_structure_returns_iff_witness :
  (exists changed o' w' calls,
     create_structure scenario scenario_opts None edited_disk
     = (Ok (changed, o'), o', w', calls))
  <-> (shaped (NDict scenario) = true
       /\ exists root, Path_ (root_arg scenario_opts None) = Ok root).
Proof.
  exact (create_structure_returns_iff (fun _ _ => True) scenario scenario_opts
           None edited_disk (in_memory_mkdir_returns (fun _ => True))
           scenario_leaves_return I).
Defined.

Lemma reified_content_is_final_witness :
  callable (VTemplate "${name}" None) = false
  /\ reify_content (VTemplate "${name}" None) scenario_opts empty_disk
     = (Ok (VStr "X"), scenario_opts, empty_disk)
  /\ reify_content (VStr "X") dry_run edited_disk
     = (Ok (VStr "X"), dry_run, edited_disk).
Proof.
  assert (Hr : reify_content (VTemplate "${name}" None) scenario_opts empty_disk
               = (Ok (VStr "X"), scenario_opts, empty_disk))
    by (vm_compute; reflexivity).
  split; [reflexivity|]. split; [exact Hr|].
  exact (reified_content_is_final (VTemplate "${name}" None) (VStr "X")
           scenario_opts dry_run scenario_opts empty_disk edited_disk empty_disk
           eq_refl Hr).
Defined.

Lemma template_reads_named_options_witness :
  out_result
    (reify_content (VTemplate "${name} and $$" None) scenario_opts empty_disk)
  = out_result
      (reify_content (VTemplate "${name} and $$" None)
         (<["pretend" := OBool true]> scenario_opts) edited_disk).
Proof.
  apply template_reads_named_options.
  intros id Hid. vm_compute in Hid.
  apply list_elem_of_singleton in Hid as ->. vm_compute. reflexivity.
Defined.

Lemma scenario_leaves_keep_options :
  Forall (leaf_keeps (fun o (_ : @World platform) => o = scenario_opts))
    (leaves_of (NDict scenario)).
Proof.
  repeat (apply Forall_cons; split); [| |apply Forall_nil_2];
    (split; [intros o w Ho; exact Ho|]);
    intros path content o w Ho; rewrite in_memory_builtin_opts; auto.
Defined.

Lemma create_structure_returns_options_witness :
  scenario_opts = scenario_opts
  /\ (Forall (leaf_keeps (fun o (_ : @World platform) => o = scenario_opts))
        (leaves_of (NDict scenario)) ->
      scenario_opts = scenario_opts)
  /\ (forall name, has_key name rerun_changed = true -> name ∈ keys scenario)
  /\ (scenario = [] ->
      rerun_changed = []
      /\ scenario_opts = scenario_opts
      /\ rerun_calls
         = [EvMkdir (root_arg scenario_opts None)
              (py_or (get scenario_opts "update") (get scenario_opts "force"))
              (get scenario_opts "pretend")]).
Proof.
  exact (create_structure_returns_options scenario scenario_opts None edited_disk
           rerun_changed scenario_opts scenario_opts rerun_disk rerun_calls
           scenario_rerun_run).
Defined.

Lemma init_returns :
  reify_returns (fun o (_ : @World platform) => named o) (VFunc templates_init).
Proof.
  intros o w [[package Hp] [name Hn]].
  change (reify_content (VFunc templates_init) o w) with (init_ o w).
  unfold init_, getitem. rewrite Hp, Hn.
  eexists _, _, _. split; [reflexivity|].
  split; rewrite lookup_insert_ne by discriminate; eauto.
Defined.

Lemma default_structure_created_iff_witness :
  exists struct,
    define_structure [] demo_opts = Ok (struct, demo_opts)
    /\ uniq_keys (NDict struct) = true
    /\ ((exists changed o' w' calls,
           create_structure struct demo_opts None empty_disk
           = (Ok (changed, o'), o', w', calls)
           /\ mirrors (NDict struct) (NDict changed) = true)
        <-> is_str (OStr "demo") = true).
Proof.
  apply (default_structure_created_iff (Pf := platform) (fun o _ => named o)
           [] demo_opts (OStr "demo") ([] : list string) empty_disk
           (in_memory_mkdir_returns named)
           (in_memory_op_returns named create (or_introl eq_refl))
           (in_memory_op_returns named NO_OVERWRITE
              (or_intror (or_introl eq_refl)))
           (in_memory_op_returns named SKIP_ON_UPDATE
              (or_intror (or_intror eq_refl)))
           init_returns).
  - intros o w Ho. simpl. eauto.
  - intros o w Ho. simpl. eauto.
  - split; vm_compute; eauto.
  - vm_compute. reflexivity.
  - vm_compute. reflexivity.
Defined.
